(** * Task management service: domain, repository, service and HTTP adapter

    A shallow embedding of the Python sources

      - [app/domain/task.py]                                   (module [Domain])
      - [app/adapters/persistence/memory_task_repository.py]   (module [MemoryTaskRepository])
      - [app/application/services/task_service.py]             (module [TaskService])
      - [app/adapters/http/fastapi_app.py]                     (module [FastapiApp])

    followed by the properties of the specification, stated over these
    definitions.

    Modelling conventions.
      - A Python [str] is a [string]; one [ascii] stands for one code point
        in the range U+0000..U+00FF, and [str.lower] / [str.strip] follow
        CPython on that range.
      - A raised exception is a value of [exn]; code that may raise returns
        a [result].
      - [self._tasks], the only mutable object of the program, is threaded
        explicitly: a method that touches it is a function
        [Repo -> result A * Repo], so the store that an exception leaves
        behind is visible.
      - [uuid.uuid4()] is an oracle: the functions that may call it take the
        string it would return as the argument [uuid4]. *)

From Stdlib Require Import String Ascii List Bool NArith Arith Lia DecimalString.
Import ListNotations.
Open Scope string_scope.

(* ================================================================== *)
(** ** Python strings *)

Module PyStr.

(** [bool(s)]: the empty string is the only falsy string. *)
Definition truthy (s : string) : bool :=
  match s with
  | EmptyString => false
  | String _ _ => true
  end.

(** [Py_UNICODE_ISSPACE] on U+0000..U+00FF: TAB, LF, VT, FF, CR, the
    separators FS, GS, RS, US, the space, NEL (U+0085) and the no-break
    space (U+00A0). *)
Definition isspace (c : ascii) : bool :=
  let n := N_of_ascii c in
  ((9 <=? n) && (n <=? 13) || (28 <=? n) && (n <=? 32)
   || (n =? 133) || (n =? 160))%N.

(** A cased upper-case code point of the range: A-Z, and U+00C0..U+00DE
    without the multiplication sign U+00D7. *)
Definition isupper (c : ascii) : bool :=
  let n := N_of_ascii c in
  ((65 <=? n) && (n <=? 90)
   || (192 <=? n) && (n <=? 222) && negb (n =? 215))%N.

Definition lower_char (c : ascii) : ascii :=
  if isupper c then ascii_of_N (N_of_ascii c + 32) else c.

(** [s.lower()] *)
Fixpoint lower (s : string) : string :=
  match s with
  | EmptyString => EmptyString
  | String c s' => String (lower_char c) (lower s')
  end.

(** [s.lstrip()] *)
Fixpoint lstrip (s : string) : string :=
  match s with
  | EmptyString => EmptyString
  | String c s' => if isspace c then lstrip s' else s
  end.

(** [s.rstrip()] *)
Fixpoint rstrip (s : string) : string :=
  match s with
  | EmptyString => EmptyString
  | String c s' =>
      match rstrip s' with
      | EmptyString => if isspace c then EmptyString else String c EmptyString
      | String d r => String c (String d r)
      end
  end.

(** [s.strip()]: leading, then trailing white space is dropped. *)
Definition strip (s : string) : string := rstrip (lstrip s).

(** [x in xs] for a list of strings. *)
Fixpoint contains (x : string) (xs : list string) : bool :=
  match xs with
  | [] => false
  | y :: ys => (x =? y) || contains x ys
  end.

(** [str(n)] for a non-negative integer. *)
Definition of_nat (n : nat) : string := NilEmpty.string_of_uint (Nat.to_uint n).

End PyStr.

(* ================================================================== *)
(** ** Exceptions *)

Inductive exn : Type :=
| ValueError (msg : string)
| AttributeError (msg : string)
| HTTPException (status_code : nat) (detail : string).

Inductive result (A : Type) : Type :=
| Ok (a : A)
| Raise (e : exn).

Arguments Ok {A} a.
Arguments Raise {A} e.

Definition is_ValueError (e : exn) : bool :=
  match e with
  | ValueError _ => true
  | _ => false
  end.

(** [str(e)] *)
Definition exn_str (e : exn) : string :=
  match e with
  | ValueError msg => msg
  | AttributeError msg => msg
  | HTTPException code detail => PyStr.of_nat code ++ ": " ++ detail
  end.

Module Res.

Definition bind {A B} (r : result A) (k : A -> result B) : result B :=
  match r with
  | Ok a => k a
  | Raise e => Raise e
  end.

(** [try: body  except <sel>: handler]; an exception that [sel] does not
    select goes on propagating. *)
Definition try_except {A} (body : result A) (sel : exn -> bool)
           (handler : exn -> result A) : result A :=
  match body with
  | Ok a => Ok a
  | Raise e => if sel e then handler e else Raise e
  end.

End Res.

Declare Scope res_scope.
Delimit Scope res_scope with res.
Notation "x <- c1 ;; c2" := (Res.bind c1 (fun x => c2))
  (at level 61, c1 at next level, right associativity) : res_scope.

(* ================================================================== *)
(** ** app/domain/task.py *)

Module Domain.

(** [class TaskStatus(Enum)] *)
Inductive TaskStatus : Type :=
| PENDING
| DONE.

(** [TaskStatus.value] *)
Definition value (s : TaskStatus) : string :=
  match s with
  | PENDING => "pending"
  | DONE => "done"
  end.

(** [TaskStatus(v)]: look a member up by value. *)
Definition TaskStatus_of_value (v : string) : result TaskStatus :=
  if v =? "pending" then Ok PENDING
  else if v =? "done" then Ok DONE
  else Raise (ValueError ("'" ++ v ++ "' is not a valid TaskStatus")).

(** What a caller may pass where a [TaskStatus] is expected: Python checks
    nothing at the call, [__post_init__] does. *)
Inductive pyobj : Type :=
| PyStatus (s : TaskStatus)
| PyStr (s : string)
| PyNone.

(** [@dataclass class Task] *)
Record Task : Type := mkTask {
  id : string;
  title : string;
  status : TaskStatus
}.

(** [Task(id=.., title=.., status=..)]: the generated [__init__] stores
    the fields and runs [__post_init__], which raises on a title that is
    empty or blank and on a status that is no [TaskStatus] (the [match]
    is the [isinstance] test). *)
Definition new_Task (id title : string) (status : pyobj) : result Task :=
  if negb (PyStr.truthy title) || negb (PyStr.truthy (PyStr.strip title))
  then Raise (ValueError "Task title cannot be empty")
  else
    match status with
    | PyStatus s => Ok (mkTask id title s)
    | _ => Raise (ValueError
                    "Invalid status. Must be one of: ['pending', 'done']")
    end.

(** [Task.to_dict()]: the values at the keys "id", "title", "status". *)
Record TaskDict : Type := mkTaskDict {
  d_id : string;
  d_title : string;
  d_status : string
}.

Definition to_dict (self : Task) : TaskDict :=
  mkTaskDict (id self) (title self) (value (status self)).

Definition mark_as_done (self : Task) : result Task :=
  new_Task (id self) (title self) (PyStatus DONE).

Definition update_title (self : Task) (new_title : string) : result Task :=
  new_Task (id self) new_title (PyStatus (status self)).

Module TaskFactory.

(** [TaskFactory.create(title, status, task_id=None)] *)
Definition create (uuid4 : string) (title status : string)
           (task_id : option string) : result Task :=
  (task_status <-
     Res.try_except (TaskStatus_of_value (PyStr.lower status))
       is_ValueError
       (fun _ => Raise (ValueError ("Invalid status '" ++ status
                                    ++ "'. Must be 'pending' or 'done'")));;
   let task_id := match task_id with
                  | None => uuid4
                  | Some i => i
                  end in
   new_Task task_id (PyStr.strip title) (PyStatus task_status))%res.

(** The mapping given to [from_dict], as far as it is modelled: each of the
    three keys is absent ([None]) or holds a [str].  A key that holds [None]
    or an object of another type is outside this record. *)
Record TaskData : Type := mkTaskData {
  data_title : option string;
  data_status : option string;
  data_id : option string
}.

Definition get_default (o : option string) (default : string) : string :=
  match o with
  | Some v => v
  | None => default
  end.

(** The mapping [to_dict] returns, as an argument of [from_dict]: the three
    keys are present. *)
Definition data_of_dict (d : TaskDict) : TaskData :=
  mkTaskData (Some (d_title d)) (Some (d_status d)) (Some (d_id d)).

(** [TaskFactory.from_dict(data)] *)
Definition from_dict (uuid4 : string) (data : TaskData) : result Task :=
  create uuid4
         (get_default (data_title data) EmptyString)
         (get_default (data_status data) "pending")
         (data_id data).

End TaskFactory.

End Domain.

(* ================================================================== *)
(** ** Python dictionaries with string keys

    A [dict] keeps its keys in insertion order: assigning to a key that is
    present overwrites the value where it stands, assigning to a new key
    appends, [del] removes the entry.  The model is the list of entries in
    that order.  A key occurs once in a dictionary ([set] and [del] keep it
    so, see [Dict_set_NoDup] and [Dict_del_NoDup]), and there [del] removes the one
    entry of the key ([Dict_del_NoDup_split]). *)

Module Dict.

Definition t (V : Type) : Type := list (string * V).

Definition empty {V} : t V := [].

(** [d.get(k)] *)
Fixpoint get {V} (k : string) (d : t V) : option V :=
  match d with
  | [] => None
  | (k', v) :: d' => if k =? k' then Some v else get k d'
  end.

(** [k in d] *)
Fixpoint mem {V} (k : string) (d : t V) : bool :=
  match d with
  | [] => false
  | (k', _) :: d' => (k =? k') || mem k d'
  end.

(** [d[k] = v] *)
Fixpoint set {V} (k : string) (v : V) (d : t V) : t V :=
  match d with
  | [] => [(k, v)]
  | (k', v') :: d' =>
      if k =? k' then (k, v) :: d' else (k', v') :: set k v d'
  end.

(** [del d[k]] *)
Fixpoint del {V} (k : string) (d : t V) : t V :=
  match d with
  | [] => []
  | (k', v') :: d' =>
      if k =? k' then del k d' else (k', v') :: del k d'
  end.

(** [d.keys()], [d.values()] *)
Definition keys {V} (d : t V) : list string := map fst d.
Definition values {V} (d : t V) : list V := map snd d.

End Dict.

(* ================================================================== *)
(** ** The store and the monad of the methods that use it *)

(** [self._tasks : Dict[str, Task]] of the one repository instance. *)
Definition Repo : Type := Dict.t Domain.Task.

Definition M (A : Type) : Type := Repo -> result A * Repo.

Module St.

Definition ret {A} (a : A) : M A := fun tasks => (Ok a, tasks).

Definition raise {A} (e : exn) : M A := fun tasks => (Raise e, tasks).

Definition bind {A B} (m : M A) (k : A -> M B) : M B :=
  fun tasks =>
    match m tasks with
    | (Ok a, tasks') => k a tasks'
    | (Raise e, tasks') => (Raise e, tasks')
    end.

(** A computation that does not touch the store. *)
Definition lift {A} (r : result A) : M A := fun tasks => (r, tasks).

(** [try: body  except <sel> as e: handler]: the handler runs in the store
    the body left. *)
Definition try_except {A} (body : M A) (sel : exn -> bool)
           (handler : exn -> M A) : M A :=
  fun tasks =>
    match body tasks with
    | (Ok a, tasks') => (Ok a, tasks')
    | (Raise e, tasks') =>
        if sel e then handler e tasks' else (Raise e, tasks')
    end.

End St.

Declare Scope st_scope.
Delimit Scope st_scope with st.
Notation "x <- c1 ;; c2" := (St.bind c1 (fun x => c2))
  (at level 61, c1 at next level, right associativity) : st_scope.

(* ================================================================== *)
(** ** app/adapters/persistence/memory_task_repository.py *)

Module MemoryTaskRepository.
Import Domain.

(** [MemoryTaskRepository()] *)
Definition init : Repo := Dict.empty.

Definition save (task : Task) : M Task :=
  fun tasks => (Ok task, Dict.set (id task) task tasks).

Definition find_all : M (list Task) :=
  fun tasks => (Ok (Dict.values tasks), tasks).

Definition find_by_id (task_id : string) : M (option Task) :=
  fun tasks => (Ok (Dict.get task_id tasks), tasks).

Definition update (task : Task) : M (option Task) :=
  fun tasks =>
    if negb (Dict.mem (id task) tasks) then (Ok None, tasks)
    else (Ok (Some task), Dict.set (id task) task tasks).

Definition delete (task_id : string) : M bool :=
  fun tasks =>
    if Dict.mem task_id tasks then (Ok true, Dict.del task_id tasks)
    else (Ok false, tasks).

Definition clear : M unit :=
  fun _ => (Ok tt, Dict.empty).

End MemoryTaskRepository.

(* ================================================================== *)
(** ** app/application/services/task_service.py

    The service holds one repository; its methods are written against
    [MemoryTaskRepository], the implementation the application wires in. *)

Module TaskService.
Import Domain.

Definition create_task (uuid4 : string) (title status : string) : M Task :=
  (task <- St.lift (TaskFactory.create uuid4 title status None);;
   MemoryTaskRepository.save task)%st.

Definition get_all_tasks : M (list Task) :=
  MemoryTaskRepository.find_all.

Definition get_task_by_id (task_id : string) : M (option Task) :=
  MemoryTaskRepository.find_by_id task_id.

Definition update_task (uuid4 : string) (task_id : string)
           (title status : option string) : M (option Task) :=
  (existing_task <- MemoryTaskRepository.find_by_id task_id;;
   match existing_task with
   | None => St.ret None
   | Some existing_task =>
       let new_title := match title with
                        | Some t => t
                        | None => Domain.title existing_task
                        end in
       let new_status := match status with
                         | Some s => s
                         | None => value (Domain.status existing_task)
                         end in
       updated_task <- St.lift (TaskFactory.create uuid4 new_title new_status
                                                   (Some task_id));;
       MemoryTaskRepository.update updated_task
   end)%st.

Definition delete_task (task_id : string) : M bool :=
  MemoryTaskRepository.delete task_id.

Definition get_tasks_by_status (status : string) : M (list Task) :=
  (all_tasks <- MemoryTaskRepository.find_all;;
   St.ret (filter (fun task => value (Domain.status task) =? PyStr.lower status)
                  all_tasks))%st.

End TaskService.

(* ================================================================== *)
(** ** app/adapters/http/fastapi_app.py *)

Module FastapiApp.
Import Domain.

(** [class TaskResponse(BaseModel)] *)
Record TaskResponse : Type := mkTaskResponse {
  r_id : string;
  r_title : string;
  r_status : string
}.

(** [TaskResponse] built from the entries of a [to_dict] result. *)
Definition TaskResponse_of (d : TaskDict) : TaskResponse :=
  mkTaskResponse (d_id d) (d_title d) (d_status d).

(** [from fastapi import status]: the constants the adapter names. *)
Module status.
Definition HTTP_201_CREATED : nat := 201.
Definition HTTP_204_NO_CONTENT : nat := 204.
Definition HTTP_400_BAD_REQUEST : nat := 400.
Definition HTTP_404_NOT_FOUND : nat := 404.
Definition HTTP_500_INTERNAL_SERVER_ERROR : nat := 500.
End status.

(** Inside [get_tasks] the name [status] is the query parameter, an
    [Optional[str]], not fastapi's [status] module that the other
    endpoints see under that name.  [status.HTTP_..] is therefore an
    attribute lookup on a [str] or on [None], and neither type has an
    attribute of such a name. *)
Definition getattr_param (obj : option string) (name : string) : result nat :=
  match obj with
  | Some _ =>
      Raise (AttributeError ("'str' object has no attribute '" ++ name ++ "'"))
  | None =>
      Raise (AttributeError
               ("'NoneType' object has no attribute '" ++ name ++ "'"))
  end.

(** [async def get_tasks(status: Optional[str] = None)] *)
Definition get_tasks (status : option string) : M (list TaskResponse) :=
  St.try_except
    (tasks <-
       match status with
       | Some s =>
           if PyStr.truthy s then
             _ <- (if negb (PyStr.contains (PyStr.lower s) ["pending"; "done"])
                   then
                     code <- St.lift (getattr_param status "HTTP_400_BAD_REQUEST");;
                     St.raise (HTTPException
                                 code "Status must be 'pending' or 'done'")
                   else St.ret tt);;
             TaskService.get_tasks_by_status s
           else TaskService.get_all_tasks
       | None => TaskService.get_all_tasks
       end;;
     St.ret (map (fun task => TaskResponse_of (to_dict task)) tasks))%st
    (fun _ => true)
    (fun e =>
       code <- St.lift (getattr_param status "HTTP_500_INTERNAL_SERVER_ERROR");;
       St.raise (HTTPException code ("Error retrieving tasks: " ++ exn_str e)))%st.

(** The request bodies as the endpoints receive them; the validators of
    the two models run in the framework before the endpoint is called. *)
Record CreateTaskRequest : Type := mkCreateTaskRequest {
  create_title : string;
  create_status : string
}.

Record UpdateTaskRequest : Type := mkUpdateTaskRequest {
  update_title : option string;
  update_status : option string
}.

(** [Field(.., min_length=1)] on a string. *)
Definition min_length_1 (v : string) : bool := (1 <=? String.length v)%nat.

(** [CreateTaskRequest.title_not_empty] *)
Definition CreateTaskRequest_title_not_empty (v : string) : result string :=
  if negb (PyStr.truthy v) || negb (PyStr.truthy (PyStr.strip v))
  then Raise (ValueError "Title cannot be empty or whitespace")
  else Ok (PyStr.strip v).

(** [CreateTaskRequest.status_valid] *)
Definition CreateTaskRequest_status_valid (v : string) : result string :=
  if negb (PyStr.contains (PyStr.lower v) ["pending"; "done"])
  then Raise (ValueError "Status must be 'pending' or 'done'")
  else Ok (PyStr.lower v).

(** [CreateTaskRequest(title=.., status=..)] as pydantic builds it from the
    two strings of a body: for each field the constraint of [Field], then
    the validator of the field, whose result is stored.  A field that fails
    gives no model ([None]): the framework rejects the request before the
    endpoint is called. *)
Definition CreateTaskRequest_validate (title status : string)
  : option CreateTaskRequest :=
  if negb (min_length_1 title) then None
  else
    match CreateTaskRequest_title_not_empty title,
          CreateTaskRequest_status_valid status with
    | Ok t, Ok s => Some (mkCreateTaskRequest t s)
    | _, _ => None
    end.

(** [UpdateTaskRequest.title_not_empty] *)
Definition UpdateTaskRequest_title_not_empty (v : option string)
  : result (option string) :=
  if match v with
     | Some s => negb (PyStr.truthy s) || negb (PyStr.truthy (PyStr.strip s))
     | None => false
     end
  then Raise (ValueError "Title cannot be empty or whitespace")
  else Ok match v with
          | Some s => if PyStr.truthy s then Some (PyStr.strip s) else None
          | None => None
          end.

(** [UpdateTaskRequest.status_valid] *)
Definition UpdateTaskRequest_status_valid (v : option string)
  : result (option string) :=
  if match v with
     | Some s => negb (PyStr.contains (PyStr.lower s) ["pending"; "done"])
     | None => false
     end
  then Raise (ValueError "Status must be 'pending' or 'done'")
  else Ok match v with
          | Some s => if PyStr.truthy s then Some (PyStr.lower s) else None
          | None => None
          end.

(** [UpdateTaskRequest(..)] from the optional strings of a body; a field
    that is absent or null is [None]. *)
Definition UpdateTaskRequest_validate (title status : option string)
  : option UpdateTaskRequest :=
  if match title with
     | Some s => negb (min_length_1 s)
     | None => false
     end
  then None
  else
    match UpdateTaskRequest_title_not_empty title,
          UpdateTaskRequest_status_valid status with
    | Ok t, Ok s => Some (mkUpdateTaskRequest t s)
    | _, _ => None
    end.

Definition not_found (task_id : string) : exn :=
  HTTPException status.HTTP_404_NOT_FOUND
                ("Task with id '" ++ task_id ++ "' not found").

(** [async def create_task(request: CreateTaskRequest)]: here, as in the
    endpoints below, [status] is the module. *)
Definition create_task (uuid4 : string) (request : CreateTaskRequest)
  : M TaskResponse :=
  St.try_except
    (task <- TaskService.create_task uuid4 (create_title request)
                                     (create_status request);;
     St.ret (TaskResponse_of (to_dict task)))%st
    (fun _ => true)
    (fun e =>
       if is_ValueError e
       then St.raise (HTTPException status.HTTP_400_BAD_REQUEST (exn_str e))
       else St.raise (HTTPException status.HTTP_500_INTERNAL_SERVER_ERROR
                                    ("Error creating task: " ++ exn_str e))).

(** [async def get_task(task_id: str)] *)
Definition get_task (task_id : string) : M TaskResponse :=
  (task <- TaskService.get_task_by_id task_id;;
   match task with
   | None => St.raise (not_found task_id)
   | Some task => St.ret (TaskResponse_of (to_dict task))
   end)%st.

Definition is_HTTPException (e : exn) : bool :=
  match e with
  | HTTPException _ _ => true
  | _ => false
  end.

(** [async def update_task(task_id: str, request: UpdateTaskRequest)]: the
    clauses are [except ValueError], [except HTTPException: raise] and
    [except Exception], tried in that order. *)
Definition update_task (uuid4 : string) (task_id : string)
           (request : UpdateTaskRequest) : M TaskResponse :=
  St.try_except
    (task <- TaskService.update_task uuid4 task_id (update_title request)
                                     (update_status request);;
     match task with
     | None => St.raise (not_found task_id)
     | Some task => St.ret (TaskResponse_of (to_dict task))
     end)%st
    (fun _ => true)
    (fun e =>
       if is_ValueError e
       then St.raise (HTTPException status.HTTP_400_BAD_REQUEST (exn_str e))
       else if is_HTTPException e then St.raise e
       else St.raise (HTTPException status.HTTP_500_INTERNAL_SERVER_ERROR
                                    ("Error updating task: " ++ exn_str e))).

(** [async def delete_task(task_id: str)] *)
Definition delete_task (task_id : string) : M unit :=
  (deleted <- TaskService.delete_task task_id;;
   if negb deleted then St.raise (not_found task_id) else St.ret tt)%st.

(** What the client receives. *)
Inductive Response (A : Type) : Type :=
| Content (status_code : nat) (body : A)
| Error (status_code : nat) (detail : string).

Arguments Content {A} status_code body.
Arguments Error {A} status_code detail.

Definition status_code {A} (r : Response A) : nat :=
  match r with
  | Content c _ => c
  | Error c _ => c
  end.

(** The framework around an endpoint (FastAPI on Starlette, not code of
    this repository): a returned value is sent with the route's success
    code, an [HTTPException] that leaves the endpoint with its own code and
    detail, and any other exception as 500 Internal Server Error. *)
Definition respond {A} (success_code : nat) (r : result A) : Response A :=
  match r with
  | Ok a => Content success_code a
  | Raise (HTTPException code detail) => Error code detail
  | Raise _ => Error 500 "Internal Server Error"
  end.

Definition route {A} (success_code : nat) (endpoint : M A)
  : Repo -> Response A * Repo :=
  fun tasks =>
    let (r, tasks') := endpoint tasks in (respond success_code r, tasks').

(** [GET /tasks?status=..] ([status = None] when the query has no
    [status]). *)
Definition GET_tasks (status : option string)
  : Repo -> Response (list TaskResponse) * Repo :=
  route 200 (get_tasks status).

(** The endpoints behind [POST /tasks], [GET /tasks/{id}],
    [PUT /tasks/{id}] and [DELETE /tasks/{id}], with the answer the framework
    sends for their outcome.  [POST_tasks] and [PUT_task] start where the
    framework has built the request model and calls the endpoint;
    [POST_tasks_body] and [PUT_task_body] below are the whole routes. *)
Definition POST_tasks (uuid4 : string) (request : CreateTaskRequest) :=
  route status.HTTP_201_CREATED (create_task uuid4 request).

Definition GET_task (task_id : string) := route 200 (get_task task_id).

Definition PUT_task (uuid4 task_id : string) (request : UpdateTaskRequest) :=
  route 200 (update_task uuid4 task_id request).

Definition DELETE_task (task_id : string) :=
  route status.HTTP_204_NO_CONTENT (delete_task task_id).

(** The answer of a route that takes a body: when the body builds no
    request model the framework answers 422 Unprocessable Entity itself
    (with a report of the failed fields that is not modelled) and the
    endpoint is not called. *)
Inductive BodyResponse (A : Type) : Type :=
| Unprocessable
| Answer (r : Response A).

Arguments Unprocessable {A}.
Arguments Answer {A} r.

Definition body_status_code {A} (r : BodyResponse A) : nat :=
  match r with
  | Unprocessable => 422
  | Answer r => status_code r
  end.

(** [POST /tasks] with a body whose 'title' and 'status' are strings. *)
Definition POST_tasks_body (uuid4 : string) (title status : string)
  : Repo -> BodyResponse TaskResponse * Repo :=
  fun tasks =>
    match CreateTaskRequest_validate title status with
    | None => (Unprocessable, tasks)
    | Some request =>
        let (r, tasks') := POST_tasks uuid4 request tasks in (Answer r, tasks')
    end.

(** [PUT /tasks/{id}] with a body whose 'title' and 'status' are each
    absent, null or a string. *)
Definition PUT_task_body (uuid4 task_id : string) (title status : option string)
  : Repo -> BodyResponse TaskResponse * Repo :=
  fun tasks =>
    match UpdateTaskRequest_validate title status with
    | None => (Unprocessable, tasks)
    | Some request =>
        let (r, tasks') := PUT_task uuid4 task_id request tasks in
        (Answer r, tasks')
    end.

End FastapiApp.

(* ================================================================== *)
(** ** Task objects

    [Task(..)] allocates an object; [mark_as_done] and [update_title]
    evaluate such a call and assign to no attribute of [self].  At the level
    of objects a heap maps references to the field values of the object, and
    a method call on the object at [self] yields the heap after the call and
    the reference it returns. *)

Module TaskObjects.
Import Domain.

Definition ref : Type := nat.
Definition heap : Type := list Task.

Definition deref (h : heap) (r : ref) : option Task := nth_error h r.

Definition alloc (t : Task) (h : heap) : ref * heap := (length h, (h ++ [t])%list).

(** [self.method(..)] for a method whose body is [return Task(..)]; a
    reference that points nowhere cannot be called. *)
Definition call (method : Task -> result Task) (self : ref) (h : heap)
  : option (result ref * heap) :=
  match deref h self with
  | None => None
  | Some t =>
      match method t with
      | Ok t' => let (r', h') := alloc t' h in Some (Ok r', h')
      | Raise e => Some (Raise e, h)
      end
  end.

End TaskObjects.

(* ================================================================== *)
(** ** The words of the specification *)

Module Spec.
Import Domain.

(** Two strings are the same up to the case of their letters. *)
Fixpoint eq_ignore_case (a b : string) : bool :=
  match a, b with
  | EmptyString, EmptyString => true
  | String x a', String y b' =>
      Ascii.eqb (PyStr.lower_char x) (PyStr.lower_char y)
      && eq_ignore_case a' b'
  | _, _ => false
  end.

(** The status is 'pending' or 'done', case-insensitively. *)
Definition valid_status (s : string) : bool :=
  eq_ignore_case s "pending" || eq_ignore_case s "done".

(** The string is empty or consists of white space only. *)
Fixpoint blank (s : string) : bool :=
  match s with
  | EmptyString => true
  | String c s' => PyStr.isspace c && blank s'
  end.

(** The invariant of the entity. *)
Definition task_invariant (t : Task) : Prop :=
  title t <> EmptyString /\ blank (title t) = false /\
  (status t = PENDING \/ status t = DONE).

(** The title carries no white space at either end. *)
Definition trimmed (s : string) : Prop := PyStr.strip s = s.

(** The stores the service builds: it starts from the empty repository and
    writes through [create_task], [update_task] and [delete_task] only. *)
Inductive reachable : Repo -> Prop :=
| reach_init : reachable MemoryTaskRepository.init
| reach_create uuid4 title status repo :
    reachable repo ->
    reachable (snd (TaskService.create_task uuid4 title status repo))
| reach_update uuid4 task_id title status repo :
    reachable repo ->
    reachable (snd (TaskService.update_task uuid4 task_id title status repo))
| reach_delete task_id repo :
    reachable repo ->
    reachable (snd (TaskService.delete_task task_id repo)).

(** What holds of every entry of such a store. *)
Definition stored_ok (repo : Repo) : Prop :=
  forall k t, Dict.get k repo = Some t ->
              id t = k /\ trimmed (title t) /\ task_invariant t.

End Spec.

(* ================================================================== *)
(** ** Strings: trimming and case *)

Section StringFacts.
Import PyStr.

Lemma lstrip_nonspace (c : ascii) (s : string) :
  isspace c = false -> lstrip (String c s) = String c s.
Proof. intros H. simpl. now rewrite H. Qed.

Lemma rstrip_nonspace (c : ascii) (s : string) :
  isspace c = false -> rstrip (String c s) = String c (rstrip s).
Proof.
  intros H. simpl. destruct (rstrip s); [now rewrite H | reflexivity].
Qed.

(** What [lstrip] returns is empty or starts with a character that is no
    white space. *)
Lemma lstrip_head (s : string) :
  lstrip s = EmptyString \/
  exists c r, lstrip s = String c r /\ isspace c = false.
Proof.
  induction s as [|c s IH]; simpl.
  - now left.
  - destruct (isspace c) eqn:E; [exact IH | right; eauto].
Qed.

Lemma rstrip_idem (s : string) : rstrip (rstrip s) = rstrip s.
Proof.
  induction s as [|c s IH]; simpl; [reflexivity|].
  destruct (rstrip s) as [|d r] eqn:E.
  - destruct (isspace c) eqn:Ec; simpl; [reflexivity | now rewrite Ec].
  - change (rstrip (String c (String d r)) = String c (String d r)).
    cbn [rstrip]. cbn [rstrip] in IH. rewrite IH. reflexivity.
Qed.

Lemma lstrip_blank (s : string) :
  Spec.blank s = true <-> lstrip s = EmptyString.
Proof.
  induction s as [|c s IH]; simpl; [tauto|].
  destruct (isspace c); simpl; [exact IH | split; discriminate].
Qed.

Lemma rstrip_blank (s : string) :
  Spec.blank s = true <-> rstrip s = EmptyString.
Proof.
  induction s as [|c s IH]; simpl; [tauto|].
  destruct (rstrip s) as [|d r].
  - destruct (isspace c); simpl.
    + split; [reflexivity | intros _; now apply IH].
    + split; discriminate.
  - split; [|discriminate].
    intros H. apply andb_true_iff in H as [_ H]. apply IH in H. discriminate.
Qed.

(** The test of [__post_init__] on the stripped title is the
    specification's "empty or all white space". *)
Lemma strip_blank (s : string) :
  Spec.blank s = true <-> strip s = EmptyString.
Proof.
  unfold strip. rewrite <- rstrip_blank. rewrite lstrip_blank.
  destruct (lstrip_head s) as [E | (c & r & E & Hc)]; rewrite E; simpl.
  - tauto.
  - rewrite Hc. simpl. split; discriminate.
Qed.

Lemma truthy_strip (s : string) : truthy (strip s) = negb (Spec.blank s).
Proof.
  destruct (Spec.blank s) eqn:B.
  - apply strip_blank in B. now rewrite B.
  - destruct (strip s) eqn:E; [|reflexivity].
    apply strip_blank in E. congruence.
Qed.

Lemma strip_idem (s : string) : strip (strip s) = strip s.
Proof.
  unfold strip.
  destruct (lstrip_head s) as [E | (c & r & E & Hc)]; rewrite E.
  - reflexivity.
  - rewrite (rstrip_nonspace _ _ Hc), (lstrip_nonspace _ _ Hc).
    rewrite (rstrip_nonspace _ _ Hc). now rewrite rstrip_idem.
Qed.

Lemma strip_trimmed (s : string) : Spec.trimmed (strip s).
Proof. exact (strip_idem s). Qed.

Lemma blank_empty_or (s : string) : Spec.blank s = false -> s <> EmptyString.
Proof. intros H ->. discriminate. Qed.

Lemma eq_ignore_case_lower (a b : string) :
  Spec.eq_ignore_case a b = true <-> lower a = lower b.
Proof.
  revert b. induction a as [|x a IH]; intros [|y b]; simpl;
    try (split; [discriminate | discriminate]); try tauto.
  rewrite andb_true_iff, Ascii.eqb_eq, IH. split.
  - intros [-> ->]. reflexivity.
  - intros H. injection H. auto.
Qed.

Lemma valid_status_lower (s : string) :
  Spec.valid_status s = true <-> lower s = "pending" \/ lower s = "done".
Proof.
  unfold Spec.valid_status.
  rewrite orb_true_iff, !eq_ignore_case_lower. reflexivity.
Qed.

Lemma invalid_status_lower (s : string) :
  Spec.valid_status s = false <-> lower s <> "pending" /\ lower s <> "done".
Proof.
  rewrite <- not_true_iff_false, valid_status_lower. tauto.
Qed.

Lemma lower_value (st : Domain.TaskStatus) :
  lower (Domain.value st) = Domain.value st.
Proof. destruct st; reflexivity. Qed.

(** [value == status.lower()] is the case-insensitive match. *)
Lemma value_eqb_lower (st : Domain.TaskStatus) (s : string) :
  (Domain.value st =? lower s) = Spec.eq_ignore_case (Domain.value st) s.
Proof.
  destruct (Spec.eq_ignore_case (Domain.value st) s) eqn:E.
  - apply eq_ignore_case_lower in E. rewrite lower_value in E.
    now apply String.eqb_eq.
  - apply String.eqb_neq. intros H.
    rewrite <- lower_value in H. apply eq_ignore_case_lower in H. congruence.
Qed.

End StringFacts.

(* ================================================================== *)
(** ** Dictionaries *)

Section DictFacts.
Context {V : Type}.
Implicit Types (k : string) (v : V) (d : Dict.t V).

Lemma Dict_mem_get k d : Dict.mem k d = false <-> Dict.get k d = None.
Proof.
  induction d as [|[k' v'] d IH]; simpl; [tauto|].
  destruct (k =? k'); simpl; [split; discriminate | exact IH].
Qed.

Lemma Dict_get_mem k v d : Dict.get k d = Some v -> Dict.mem k d = true.
Proof.
  intros H. destruct (Dict.mem k d) eqn:E; [reflexivity|].
  apply Dict_mem_get in E. congruence.
Qed.

Lemma Dict_get_set_same k v d : Dict.get k (Dict.set k v d) = Some v.
Proof.
  induction d as [|[k' v'] d IH]; simpl.
  - now rewrite String.eqb_refl.
  - destruct (k =? k') eqn:E; simpl; rewrite ?String.eqb_refl, ?E; auto.
Qed.

Lemma Dict_get_set_other k k' v d :
  k <> k' -> Dict.get k' (Dict.set k v d) = Dict.get k' d.
Proof.
  intros N. induction d as [|[k0 v0] d IH]; simpl.
  - apply not_eq_sym in N. apply String.eqb_neq in N. now rewrite N.
  - destruct (k =? k0) eqn:E; simpl.
    + apply String.eqb_eq in E. subst k0.
      apply not_eq_sym in N. apply String.eqb_neq in N. now rewrite N.
    + now rewrite IH.
Qed.

(** Assigning to a key that is present adds no entry and moves none. *)
Lemma Dict_keys_set_mem k v d :
  Dict.mem k d = true -> Dict.keys (Dict.set k v d) = Dict.keys d.
Proof.
  unfold Dict.keys. induction d as [|[k' v'] d IH]; simpl; [discriminate|].
  destruct (k =? k') eqn:E; simpl.
  - apply String.eqb_eq in E. now subst.
  - intros H. now rewrite IH.
Qed.

(** Assigning to a new key appends the entry. *)
Lemma Dict_set_new k v d :
  Dict.mem k d = false -> Dict.set k v d = (d ++ [(k, v)])%list.
Proof.
  induction d as [|[k' v'] d IH]; simpl; [reflexivity|].
  destruct (k =? k'); simpl; [discriminate|]. intros H. now rewrite IH.
Qed.

Lemma Dict_mem_del k d : Dict.mem k (Dict.del k d) = false.
Proof.
  induction d as [|[k' v'] d IH]; simpl; [reflexivity|].
  destruct (k =? k') eqn:E; simpl; [exact IH | now rewrite E].
Qed.

Lemma Dict_del_absent k d : Dict.mem k d = false -> Dict.del k d = d.
Proof.
  induction d as [|[k' v'] d IH]; simpl; [reflexivity|].
  destruct (k =? k'); simpl; [discriminate|]. intros H. now rewrite IH.
Qed.

Lemma Dict_get_del_other k k' d :
  k <> k' -> Dict.get k' (Dict.del k d) = Dict.get k' d.
Proof.
  intros N. induction d as [|[k0 v0] d IH]; simpl; [reflexivity|].
  destruct (k =? k0) eqn:E; simpl.
  - apply String.eqb_eq in E. subst k0.
    apply not_eq_sym in N. apply String.eqb_neq in N. now rewrite N.
  - now rewrite IH.
Qed.

Lemma Dict_keys_mem k d : In k (Dict.keys d) <-> Dict.mem k d = true.
Proof.
  unfold Dict.keys. induction d as [|[k' v'] d IH]; simpl.
  - split; [tauto | discriminate].
  - rewrite orb_true_iff, String.eqb_eq, IH. intuition congruence.
Qed.

Lemma Dict_keys_del k k' d :
  In k' (Dict.keys (Dict.del k d)) -> In k' (Dict.keys d).
Proof.
  unfold Dict.keys. induction d as [|[k0 v0] d IH]; simpl; [tauto|].
  destruct (k =? k0); simpl; tauto.
Qed.

(** The operations keep the keys of a dictionary distinct. *)
Lemma Dict_set_NoDup k v d :
  NoDup (Dict.keys d) -> NoDup (Dict.keys (Dict.set k v d)).
Proof.
  intros H. destruct (Dict.mem k d) eqn:E.
  - now rewrite Dict_keys_set_mem.
  - rewrite Dict_set_new by assumption. unfold Dict.keys in *.
    rewrite map_app. simpl.
    apply NoDup_app; [assumption | repeat constructor; simpl; tauto |].
    intros x Hx [<-|[]]. apply (Dict_keys_mem k d) in Hx. congruence.
Qed.

Lemma Dict_del_NoDup k d :
  NoDup (Dict.keys d) -> NoDup (Dict.keys (Dict.del k d)).
Proof.
  induction d as [|[k0 v0] d IH]; simpl; [auto|].
  intros H. inversion H as [|? ? Hn Hd]; subst.
  destruct (k =? k0); [auto|]. simpl. constructor; [|auto].
  intros Hin. apply Hn. exact (Dict_keys_del _ _ _ Hin).
Qed.

(** On a dictionary [del] removes the one entry of the key and leaves the
    others where they stand. *)
Lemma Dict_del_NoDup_split k v d :
  NoDup (Dict.keys d) -> Dict.get k d = Some v ->
  exists d1 d2,
    d = (d1 ++ (k, v) :: d2)%list /\ Dict.del k d = (d1 ++ d2)%list.
Proof.
  induction d as [|[k0 v0] d IH]; simpl; [discriminate|].
  intros H G. inversion H as [|? ? Hn Hd]; subst.
  destruct (String.eqb_spec k k0) as [<-|N].
  - injection G as <-. exists [], d. split; [reflexivity|]. simpl.
    apply Dict_del_absent.
    destruct (Dict.mem k d) eqn:E; [|reflexivity].
    apply Dict_keys_mem in E. contradiction.
  - destruct (IH Hd G) as (d1 & d2 & E1 & E2).
    exists ((k0, v0) :: d1), d2. simpl. now rewrite <- E1, E2.
Qed.

End DictFacts.

(* ================================================================== *)
(** ** The entity and its factory *)

Section DomainFacts.
Import Domain.

Lemma blank_strip (s : string) : Spec.blank (PyStr.strip s) = Spec.blank s.
Proof.
  destruct (Spec.blank s) eqn:B.
  - apply strip_blank in B. now rewrite B.
  - apply not_true_iff_false. intros H. apply strip_blank in H.
    rewrite strip_idem in H. apply strip_blank in H. congruence.
Qed.

Lemma strip_nonempty_blank (s : string) :
  PyStr.strip s <> EmptyString <-> Spec.blank s = false.
Proof. rewrite <- strip_blank. apply not_true_iff_false. Qed.

Lemma new_Task_ok (i ttl : string) (s : TaskStatus) :
  Spec.blank ttl = false -> new_Task i ttl (PyStatus s) = Ok (mkTask i ttl s).
Proof.
  intros B. unfold new_Task. rewrite truthy_strip, B.
  destruct ttl; [discriminate | reflexivity].
Qed.

Lemma new_Task_blank (i ttl : string) (st : pyobj) :
  Spec.blank ttl = true ->
  new_Task i ttl st = Raise (ValueError "Task title cannot be empty").
Proof.
  intros B. unfold new_Task. rewrite truthy_strip, B. simpl.
  now rewrite orb_true_r.
Qed.

Lemma new_Task_inv (i ttl : string) (st : pyobj) (t : Task) :
  new_Task i ttl st = Ok t ->
  Spec.blank ttl = false /\ st = PyStatus (status t) /\
  t = mkTask i ttl (status t).
Proof.
  unfold new_Task. rewrite truthy_strip.
  destruct (Spec.blank ttl) eqn:B; simpl.
  - rewrite orb_true_r. discriminate.
  - destruct (negb (PyStr.truthy ttl)); simpl; [discriminate|].
    destruct st; try discriminate. intros [= <-]. auto.
Qed.

Lemma new_Task_raises (i ttl : string) (st : pyobj) (e : exn) :
  new_Task i ttl st = Raise e -> is_ValueError e = true.
Proof.
  unfold new_Task.
  destruct (negb (PyStr.truthy ttl) || negb (PyStr.truthy (PyStr.strip ttl)));
    [|destruct st]; intros [= <-]; reflexivity.
Qed.

Lemma TaskStatus_of_value_value (st : TaskStatus) :
  TaskStatus_of_value (value st) = Ok st.
Proof. destruct st; reflexivity. Qed.

Lemma valid_status_value (s : string) :
  Spec.valid_status s = true <-> exists st, PyStr.lower s = value st.
Proof.
  rewrite valid_status_lower. split.
  - intros [H|H]; [exists PENDING | exists DONE]; exact H.
  - intros [[] H]; auto.
Qed.

Lemma create_ok (uuid4 ttl s : string) (tid : option string) (st : TaskStatus) :
  Spec.blank ttl = false -> PyStr.lower s = value st ->
  TaskFactory.create uuid4 ttl s tid =
  Ok (mkTask (match tid with None => uuid4 | Some i => i end)
             (PyStr.strip ttl) st).
Proof.
  intros B L. unfold TaskFactory.create.
  rewrite L, TaskStatus_of_value_value. simpl.
  apply new_Task_ok. now rewrite blank_strip.
Qed.

Lemma create_invalid_status (uuid4 ttl s : string) (tid : option string) :
  Spec.valid_status s = false ->
  TaskFactory.create uuid4 ttl s tid =
  Raise (ValueError ("Invalid status '" ++ s ++ "'. Must be 'pending' or 'done'")).
Proof.
  intros H. apply invalid_status_lower in H as [H1 H2].
  apply String.eqb_neq in H1, H2.
  unfold TaskFactory.create, TaskStatus_of_value. now rewrite H1, H2.
Qed.

Lemma create_blank (uuid4 ttl s : string) (tid : option string) :
  Spec.valid_status s = true -> Spec.blank ttl = true ->
  TaskFactory.create uuid4 ttl s tid =
  Raise (ValueError "Task title cannot be empty").
Proof.
  intros H B. apply valid_status_value in H as [st L].
  unfold TaskFactory.create. rewrite L, TaskStatus_of_value_value. simpl.
  apply new_Task_blank. now rewrite blank_strip.
Qed.

(** The factory returns a task or raises a [ValueError], nothing else. *)
Lemma create_cases (uuid4 ttl s : string) (tid : option string) :
  (Spec.blank ttl = false /\ exists st, PyStr.lower s = value st /\
     TaskFactory.create uuid4 ttl s tid =
     Ok (mkTask (match tid with None => uuid4 | Some i => i end)
                (PyStr.strip ttl) st)) \/
  ((Spec.blank ttl = true \/ Spec.valid_status s = false) /\
   exists msg, TaskFactory.create uuid4 ttl s tid = Raise (ValueError msg)).
Proof.
  destruct (Spec.valid_status s) eqn:Vs.
  - destruct (Spec.blank ttl) eqn:B.
    + right. split; [auto|]. eexists. now apply create_blank.
    + left. split; [reflexivity|].
      destruct (proj1 (valid_status_value s) Vs) as [st L].
      exists st. split; [exact L | now apply create_ok].
  - right. split; [auto|]. eexists. now apply create_invalid_status.
Qed.

Lemma task_invariant_mk (i ttl : string) (s : TaskStatus) :
  Spec.blank ttl = false -> Spec.task_invariant (mkTask i ttl s).
Proof.
  intros B. repeat split; simpl.
  - now apply blank_empty_or.
  - exact B.
  - destruct s; auto.
Qed.

End DomainFacts.

(* ================================================================== *)
(** ** The service over the in-memory repository *)

Section ServiceFacts.
Import Domain.

Lemma create_task_unfold (uuid4 ttl s : string) (repo : Repo) :
  TaskService.create_task uuid4 ttl s repo =
  match TaskFactory.create uuid4 ttl s None with
  | Ok t => (Ok t, Dict.set (id t) t repo)
  | Raise e => (Raise e, repo)
  end.
Proof.
  unfold TaskService.create_task, St.bind, St.lift, MemoryTaskRepository.save.
  now destruct (TaskFactory.create uuid4 ttl s None).
Qed.

Lemma update_task_absent (uuid4 task_id : string) (ttl s : option string)
      (repo : Repo) :
  Dict.get task_id repo = None ->
  TaskService.update_task uuid4 task_id ttl s repo = (Ok None, repo).
Proof.
  intros H.
  unfold TaskService.update_task, St.bind, MemoryTaskRepository.find_by_id.
  now rewrite H.
Qed.

Lemma update_task_present (uuid4 task_id : string) (ttl s : option string)
      (repo : Repo) (existing : Task) :
  Dict.get task_id repo = Some existing ->
  TaskService.update_task uuid4 task_id ttl s repo =
  match TaskFactory.create uuid4
          (match ttl with Some t => t | None => title existing end)
          (match s with Some v => v | None => value (status existing) end)
          (Some task_id) with
  | Ok t' => (Ok (Some t'), Dict.set task_id t' repo)
  | Raise e => (Raise e, repo)
  end.
Proof.
  intros H.
  unfold TaskService.update_task, St.bind, St.lift, St.ret,
    MemoryTaskRepository.find_by_id, MemoryTaskRepository.update.
  rewrite H.
  set (nt := match ttl with Some t => t | None => title existing end).
  set (ns := match s with Some v => v | None => value (status existing) end).
  destruct (create_cases uuid4 nt ns (Some task_id))
    as [(_ & st & _ & E) | (_ & msg & E)]; rewrite E; [|reflexivity].
  simpl. now rewrite (Dict_get_mem _ _ _ H).
Qed.

Lemma get_tasks_by_status_eq (s : string) (repo : Repo) :
  TaskService.get_tasks_by_status s repo =
  (Ok (filter (fun t => Spec.eq_ignore_case (value (status t)) s)
              (Dict.values repo)),
   repo).
Proof.
  unfold TaskService.get_tasks_by_status, St.bind, St.ret,
    MemoryTaskRepository.find_all.
  f_equal. f_equal. apply filter_ext. intros t. apply value_eqb_lower.
Qed.

(** [update_task] passes the id to the factory, which then draws none. *)
Lemma update_task_uuid4_unused (u1 u2 task_id : string) (ttl s : option string)
      (repo : Repo) :
  TaskService.update_task u1 task_id ttl s repo
  = TaskService.update_task u2 task_id ttl s repo.
Proof.
  unfold TaskService.update_task, St.bind, St.lift, TaskFactory.create, Res.bind.
  destruct (MemoryTaskRepository.find_by_id task_id repo) as [[[t|]|e] r];
    reflexivity.
Qed.

Lemma stored_ok_set (repo : Repo) (t : Task) :
  Spec.stored_ok repo -> Spec.trimmed (title t) -> Spec.task_invariant t ->
  Spec.stored_ok (Dict.set (id t) t repo).
Proof.
  intros Hr Ht Hi k t0. destruct (String.eqb_spec (id t) k) as [<-|N].
  - rewrite Dict_get_set_same. intros [= <-]. auto.
  - rewrite Dict_get_set_other by assumption. apply Hr.
Qed.

Lemma stored_ok_del (repo : Repo) (k : string) :
  Spec.stored_ok repo -> Spec.stored_ok (Dict.del k repo).
Proof.
  intros Hr k' t. destruct (String.eqb_spec k k') as [<-|N].
  - intros H. apply Dict_get_mem in H. now rewrite Dict_mem_del in H.
  - rewrite Dict_get_del_other by assumption. apply Hr.
Qed.

(** Every task the service has stored came out of the factory: it sits at
    its own id, its title is trimmed and it satisfies the invariant. *)
Lemma reachable_stored_ok (repo : Repo) :
  Spec.reachable repo -> Spec.stored_ok repo.
Proof.
  induction 1 as [|uuid4 ttl s repo _ IH|uuid4 k ttl s repo _ IH|k repo _ IH].
  - intros k t. discriminate.
  - rewrite create_task_unfold.
    destruct (create_cases uuid4 ttl s None)
      as [(B & st & _ & E) | (_ & msg & E)]; rewrite E; simpl; [|exact IH].
    apply (stored_ok_set repo (mkTask uuid4 (PyStr.strip ttl) st)); simpl.
    + exact IH.
    + apply strip_trimmed.
    + apply task_invariant_mk. now rewrite blank_strip.
  - destruct (Dict.get k repo) as [existing|] eqn:G.
    + rewrite (update_task_present _ _ _ _ _ _ G).
      match goal with
      | |- context [TaskFactory.create ?u ?a ?b ?c] =>
          destruct (create_cases u a b c)
            as [(B & st & _ & E) | (_ & msg & E)]; rewrite E; simpl;
          [|exact IH]
      end.
      match goal with
      | |- context [mkTask k ?a st] =>
          apply (stored_ok_set repo (mkTask k a st)); simpl
      end.
      * exact IH.
      * apply strip_trimmed.
      * apply task_invariant_mk. now rewrite blank_strip.
    + now rewrite update_task_absent.
  - unfold TaskService.delete_task, MemoryTaskRepository.delete.
    destruct (Dict.mem k repo); simpl; [now apply stored_ok_del | exact IH].
Qed.

Lemma reachable_NoDup (repo : Repo) :
  Spec.reachable repo -> NoDup (Dict.keys repo).
Proof.
  induction 1 as [|uuid4 ttl s repo _ IH|uuid4 k ttl s repo _ IH|k repo _ IH].
  - constructor.
  - rewrite create_task_unfold.
    destruct (TaskFactory.create uuid4 ttl s None); simpl;
      [now apply Dict_set_NoDup | exact IH].
  - destruct (Dict.get k repo) as [existing|] eqn:G.
    + rewrite (update_task_present _ _ _ _ _ _ G).
      match goal with
      | |- context [TaskFactory.create ?u ?a ?b ?c] =>
          destruct (TaskFactory.create u a b c); simpl;
          [now apply Dict_set_NoDup | exact IH]
      end.
    + now rewrite update_task_absent.
  - unfold TaskService.delete_task, MemoryTaskRepository.delete.
    destruct (Dict.mem k repo); simpl; [now apply Dict_del_NoDup | exact IH].
Qed.

End ServiceFacts.

(* ================================================================== *)
(** ** Properties of the specification *)

(** C2.  For a title whose trim is not empty and a status that is 'pending'
    or 'done' up to case, [TaskFactory.create] returns a task: its title is
    the trimmed input, its status the member whose value is the lower-cased
    input, and its id the given id, or the identifier drawn from [uuid4]
    when none is given. *)
Theorem create_valid_task (uuid4 title status : string) (task_id : option string) :
  PyStr.strip title <> EmptyString ->
  Spec.valid_status status = true ->
  exists t,
    Domain.TaskFactory.create uuid4 title status task_id = Ok t /\
    Domain.title t = PyStr.strip title /\
    Domain.value (Domain.status t) = PyStr.lower status /\
    Domain.d_status (Domain.to_dict t) = PyStr.lower status /\
    Domain.id t = match task_id with
                  | Some i => i
                  | None => uuid4
                  end.
Proof.
  intros Ht Hs. apply strip_nonempty_blank in Ht.
  apply valid_status_value in Hs as [st L].
  eexists. split; [now apply (create_ok _ _ _ _ st)|].
  simpl. rewrite L. destruct task_id; auto.
Qed.

Lemma create_valid_task_witness :
  PyStr.strip "  Buy milk " <> EmptyString /\
  Spec.valid_status "Pending" = true /\
  exists t,
    Domain.TaskFactory.create "6f1c" "  Buy milk " "Pending" None = Ok t /\
    Domain.title t = "Buy milk" /\
    Domain.value (Domain.status t) = "pending" /\
    Domain.d_status (Domain.to_dict t) = "pending" /\
    Domain.id t = "6f1c".
Proof.
  split; [discriminate | split; [reflexivity|]].
  apply (create_valid_task "6f1c" "  Buy milk " "Pending" None);
    [discriminate | reflexivity].
Defined.

(** C3.  When the trimmed title is empty or the status is not 'pending' or
    'done' up to case, [TaskFactory.create] raises a [ValueError], and
    [TaskService.create_task] raises it too and leaves the repository as it
    was.  The constructor of [Task] itself raises a [ValueError] on such a
    title, and on a status that is no member of [TaskStatus]. *)
Theorem create_rejects_invalid (uuid4 title status : string)
        (task_id : option string) (repo : Repo) :
  PyStr.strip title = EmptyString \/ Spec.valid_status status = false ->
  (exists msg,
      Domain.TaskFactory.create uuid4 title status task_id
      = Raise (ValueError msg)) /\
  (exists msg,
      TaskService.create_task uuid4 title status repo
      = (Raise (ValueError msg), repo)) /\
  (PyStr.strip title = EmptyString ->
   forall i st, exists msg,
       Domain.new_Task i title st = Raise (ValueError msg)) /\
  (forall i ttl st, (forall s, st <> Domain.PyStatus s) ->
                    exists msg, Domain.new_Task i ttl st = Raise (ValueError msg)).
Proof.
  intros H.
  assert (Hb : Spec.blank title = true \/ Spec.valid_status status = false).
  { destruct H as [H|H]; [left; now apply strip_blank | now right]. }
  repeat split.
  - destruct (create_cases uuid4 title status task_id)
      as [(B & st & L & _) | (_ & msg & E)]; [|eauto].
    destruct Hb as [Hb|Hb]; [congruence|].
    assert (Spec.valid_status status = true) by (apply valid_status_value; eauto).
    congruence.
  - rewrite create_task_unfold.
    destruct (create_cases uuid4 title status None)
      as [(B & st & L & _) | (_ & msg & E)]; [|rewrite E; eauto].
    destruct Hb as [Hb|Hb]; [congruence|].
    assert (Spec.valid_status status = true) by (apply valid_status_value; eauto).
    congruence.
  - intros E i st. apply strip_blank in E. eexists. now apply new_Task_blank.
  - intros i ttl st Hst. unfold Domain.new_Task.
    destruct (negb (PyStr.truthy ttl) || negb (PyStr.truthy (PyStr.strip ttl)));
      [eauto|].
    destruct st; eauto. now destruct (Hst s).
Qed.

Lemma create_rejects_invalid_witness :
  (PyStr.strip "   " = EmptyString \/ Spec.valid_status "pending" = false) /\
  (exists msg,
      Domain.TaskFactory.create "6f1c" "   " "pending" None
      = Raise (ValueError msg)) /\
  (exists msg,
      TaskService.create_task "6f1c" "   " "pending"
        [("a", Domain.mkTask "a" "Buy milk" Domain.PENDING)]
      = (Raise (ValueError msg),
         [("a", Domain.mkTask "a" "Buy milk" Domain.PENDING)])).
Proof.
  split; [left; reflexivity|].
  destruct (create_rejects_invalid "6f1c" "   " "pending" None
              [("a", Domain.mkTask "a" "Buy milk" Domain.PENDING)]
              (or_introl eq_refl)) as (H1 & H2 & _).
  split; assumption.
Defined.

(** C5.  Round trip: after [save task], [find_by_id] at the id of the task
    returns that very task, equal in id, title and status. *)
Theorem save_then_find_by_id (task : Domain.Task) (repo : Repo) :
  exists repo',
    MemoryTaskRepository.save task repo = (Ok task, repo') /\
    MemoryTaskRepository.find_by_id (Domain.id task) repo'
    = (Ok (Some task), repo').
Proof.
  eexists. split; [reflexivity|].
  unfold MemoryTaskRepository.find_by_id. now rewrite Dict_get_set_same.
Qed.

(** C6.  [delete] of an id that is not stored returns [False] and leaves the
    repository as it was; of two [delete]s of one id in a row, the second
    returns [False], whatever the repository held. *)
Theorem delete_idempotent (task_id : string) (repo : Repo) :
  (Dict.get task_id repo = None ->
   MemoryTaskRepository.delete task_id repo = (Ok false, repo)) /\
  (forall r1 repo1,
      MemoryTaskRepository.delete task_id repo = (r1, repo1) ->
      MemoryTaskRepository.delete task_id repo1 = (Ok false, repo1)).
Proof.
  split.
  - intros H. apply Dict_mem_get in H.
    unfold MemoryTaskRepository.delete. now rewrite H.
  - intros r1 repo1. unfold MemoryTaskRepository.delete.
    destruct (Dict.mem task_id repo) eqn:E; intros [= <- <-].
    + now rewrite Dict_mem_del.
    + now rewrite E.
Qed.

Lemma delete_idempotent_witness :
  Dict.get "b" [("a", Domain.mkTask "a" "Buy milk" Domain.PENDING)] = None /\
  MemoryTaskRepository.delete "b"
    [("a", Domain.mkTask "a" "Buy milk" Domain.PENDING)]
  = (Ok false, [("a", Domain.mkTask "a" "Buy milk" Domain.PENDING)]) /\
  MemoryTaskRepository.delete "a"
    [("a", Domain.mkTask "a" "Buy milk" Domain.PENDING)] = (Ok true, []) /\
  MemoryTaskRepository.delete "a" [] = (Ok false, []).
Proof.
  split; [reflexivity|]. split; [|split; [reflexivity|]].
  - apply (delete_idempotent "b"
             [("a", Domain.mkTask "a" "Buy milk" Domain.PENDING)]).
    reflexivity.
  - apply (proj2 (delete_idempotent "a"
                    [("a", Domain.mkTask "a" "Buy milk" Domain.PENDING)])
                 (Ok true) []).
    reflexivity.
Defined.

(** What [values] lists are the tasks of the entries of the store, and a
    task found at an id is among them. *)
Lemma Dict_values_entries (repo : Repo) (t : Domain.Task) :
  In t (Dict.values repo) <-> exists k, In (k, t) repo.
Proof.
  unfold Dict.values. rewrite in_map_iff. split.
  - intros ([k t'] & E & H). simpl in E. subst t'. eauto.
  - intros (k & H). exists (k, t). auto.
Qed.

Lemma Dict_get_values (repo : Repo) (k : string) (t : Domain.Task) :
  Dict.get k repo = Some t -> In t (Dict.values repo).
Proof.
  induction repo as [|[k' t'] repo IH]; simpl; [discriminate|].
  destruct (k =? k'); [intros [= ->]; now left | auto].
Qed.

(** C7.  [get_tasks_by_status s] returns the stored tasks whose status is
    [s] up to case: the result is the sequence of the tasks of the store,
    which is what [find_all] yields, with the tasks of another status left
    out and the order kept.  So a task is returned exactly when it is the
    task of an entry of the store and its status matches; in particular
    every task that [find_by_id] finds with a matching status is returned.
    The repository is left as it was. *)
Theorem get_tasks_by_status_filter (s : string) (repo : Repo) :
  MemoryTaskRepository.find_all repo = (Ok (Dict.values repo), repo) /\
  TaskService.get_tasks_by_status s repo
  = (Ok (filter (fun t => Spec.eq_ignore_case
                            (Domain.value (Domain.status t)) s)
                (Dict.values repo)),
     repo) /\
  (forall t,
      In t (filter (fun t => Spec.eq_ignore_case
                               (Domain.value (Domain.status t)) s)
                   (Dict.values repo)) <->
      (exists k, In (k, t) repo) /\
      Spec.eq_ignore_case (Domain.value (Domain.status t)) s = true) /\
  (forall k t,
      MemoryTaskRepository.find_by_id k repo = (Ok (Some t), repo) ->
      Spec.eq_ignore_case (Domain.value (Domain.status t)) s = true ->
      In t (filter (fun t => Spec.eq_ignore_case
                               (Domain.value (Domain.status t)) s)
                   (Dict.values repo))).
Proof.
  split; [reflexivity|]. split; [apply get_tasks_by_status_eq|]. split.
  - intros t. rewrite filter_In, Dict_values_entries. reflexivity.
  - intros k t G M. apply filter_In. split; [|exact M].
    unfold MemoryTaskRepository.find_by_id in G.
    injection G as G. exact (Dict_get_values _ _ _ G).
Qed.

(** C9, as stated, fails: 'DONE' is neither the string 'pending' nor the
    string 'done', yet [get_tasks_by_status 'DONE'] returns the task that
    [create_task] stored with status 'done'. *)
Lemma get_tasks_by_status_upper_case_found :
  PyStr.contains "DONE" ["pending"; "done"] = false /\
  fst (TaskService.get_tasks_by_status "DONE"
         (snd (TaskService.create_task "6f1c" "Buy milk" "done"
                 MemoryTaskRepository.init)))
  = Ok [Domain.mkTask "6f1c" "Buy milk" Domain.DONE] /\
  fst (TaskService.get_tasks_by_status "DONE"
         (snd (TaskService.create_task "6f1c" "Buy milk" "done"
                 MemoryTaskRepository.init)))
  <> Ok [].
Proof. split; [reflexivity | split; [reflexivity | discriminate]]. Qed.

(** C9, amended.  For a status that is not 'pending' or 'done' up to case,
    [get_tasks_by_status] raises nothing: it returns the empty list and
    leaves the repository as it was. *)
Theorem get_tasks_by_status_invalid (s : string) (repo : Repo) :
  Spec.valid_status s = false ->
  TaskService.get_tasks_by_status s repo = (Ok [], repo).
Proof.
  intros H. apply invalid_status_lower in H as [H1 H2].
  unfold TaskService.get_tasks_by_status, St.bind, St.ret,
    MemoryTaskRepository.find_all.
  f_equal. f_equal. induction (Dict.values repo) as [|t l IH]; [reflexivity|].
  simpl. rewrite IH.
  destruct (String.eqb_spec (Domain.value (Domain.status t)) (PyStr.lower s))
    as [E|_]; [|reflexivity].
  destruct (Domain.status t); simpl in E; congruence.
Qed.

Lemma get_tasks_by_status_invalid_witness :
  Spec.valid_status "xyz" = false /\
  TaskService.get_tasks_by_status "xyz"
    [("a", Domain.mkTask "a" "Buy milk" Domain.DONE)]
  = (Ok [], [("a", Domain.mkTask "a" "Buy milk" Domain.DONE)]).
Proof.
  split; [reflexivity|].
  apply (get_tasks_by_status_invalid "xyz"). reflexivity.
Defined.

(** C10.  For an id that is stored, [update_task] with the empty string as
    title (and any status argument, given or not) raises a [ValueError] and
    leaves the repository, hence the stored task and its title, as it
    was. *)
Theorem update_task_empty_title (uuid4 task_id : string) (status : option string)
        (repo : Repo) (existing : Domain.Task) :
  Dict.get task_id repo = Some existing ->
  exists msg,
    TaskService.update_task uuid4 task_id (Some EmptyString) status repo
    = (Raise (ValueError msg), repo) /\
    MemoryTaskRepository.find_by_id task_id repo = (Ok (Some existing), repo).
Proof.
  intros G. rewrite (update_task_present _ _ _ _ _ _ G).
  match goal with
  | |- context [Domain.TaskFactory.create ?u ?a ?b ?c] =>
      destruct (create_cases u a b c) as [(B & _) | (_ & msg & E)]
  end; [discriminate|].
  exists msg. rewrite E. split; [reflexivity|].
  unfold MemoryTaskRepository.find_by_id. now rewrite G.
Qed.

Lemma update_task_empty_title_witness :
  Dict.get "a" [("a", Domain.mkTask "a" "Buy milk" Domain.PENDING)]
  = Some (Domain.mkTask "a" "Buy milk" Domain.PENDING) /\
  exists msg,
    TaskService.update_task "6f1c" "a" (Some EmptyString) None
      [("a", Domain.mkTask "a" "Buy milk" Domain.PENDING)]
    = (Raise (ValueError msg),
       [("a", Domain.mkTask "a" "Buy milk" Domain.PENDING)]) /\
    MemoryTaskRepository.find_by_id "a"
      [("a", Domain.mkTask "a" "Buy milk" Domain.PENDING)]
    = (Ok (Some (Domain.mkTask "a" "Buy milk" Domain.PENDING)),
       [("a", Domain.mkTask "a" "Buy milk" Domain.PENDING)]).
Proof.
  split; [reflexivity|].
  apply (update_task_empty_title "6f1c" "a" None
           [("a", Domain.mkTask "a" "Buy milk" Domain.PENDING)]
           (Domain.mkTask "a" "Buy milk" Domain.PENDING)).
  reflexivity.
Defined.

(** C4, as stated, fails: a task whose title has a space at each end is a
    [Task] the constructor accepts and [save] stores; [update_task] with a
    new status only re-creates it through the factory, which trims, so the
    task returned and stored has another title. *)
Lemma update_task_status_only_trims_title :
  Domain.new_Task "a" " x " (Domain.PyStatus Domain.PENDING)
  = Ok (Domain.mkTask "a" " x " Domain.PENDING) /\
  MemoryTaskRepository.save (Domain.mkTask "a" " x " Domain.PENDING)
    MemoryTaskRepository.init
  = (Ok (Domain.mkTask "a" " x " Domain.PENDING),
     [("a", Domain.mkTask "a" " x " Domain.PENDING)]) /\
  TaskService.update_task "6f1c" "a" None (Some "done")
    [("a", Domain.mkTask "a" " x " Domain.PENDING)]
  = (Ok (Some (Domain.mkTask "a" "x" Domain.DONE)),
     [("a", Domain.mkTask "a" "x" Domain.DONE)]) /\
  Domain.title (Domain.mkTask "a" "x" Domain.DONE)
  <> Domain.title (Domain.mkTask "a" " x " Domain.PENDING).
Proof. repeat split; try reflexivity. discriminate. Qed.

(** C4, amended.  Let [task_id] be stored, with a task that satisfies the
    invariant of the entity.  [update_task] with only a new valid status
    returns the task of that id whose title is the stored title trimmed (the
    stored title itself when that is trimmed already) and whose status is
    the new one; with only a new title that is not blank it returns the
    task with the trimmed new title and the stored status.  In both cases
    the returned task replaces the stored one at [task_id] and no entry is
    added.  When [task_id] is not stored, [update_task] returns [None] and
    the repository is as it was.  In a store built by the service every
    title is trimmed, so that there a status-only update returns the stored
    title unchanged. *)
Theorem update_task_merge (uuid4 task_id : string) (repo : Repo) :
  (forall existing,
      Dict.get task_id repo = Some existing ->
      Spec.task_invariant existing ->
      (forall s, Spec.valid_status s = true ->
         exists t',
           TaskService.update_task uuid4 task_id None (Some s) repo
           = (Ok (Some t'), Dict.set task_id t' repo) /\
           Domain.id t' = task_id /\
           Domain.title t' = PyStr.strip (Domain.title existing) /\
           (Spec.trimmed (Domain.title existing) ->
            Domain.title t' = Domain.title existing) /\
           Domain.value (Domain.status t') = PyStr.lower s /\
           Dict.get task_id (Dict.set task_id t' repo) = Some t' /\
           Dict.keys (Dict.set task_id t' repo) = Dict.keys repo) /\
      (forall new_title, PyStr.strip new_title <> EmptyString ->
         exists t',
           TaskService.update_task uuid4 task_id (Some new_title) None repo
           = (Ok (Some t'), Dict.set task_id t' repo) /\
           Domain.id t' = task_id /\
           Domain.title t' = PyStr.strip new_title /\
           Domain.status t' = Domain.status existing /\
           Dict.get task_id (Dict.set task_id t' repo) = Some t' /\
           Dict.keys (Dict.set task_id t' repo) = Dict.keys repo)) /\
  (Dict.get task_id repo = None ->
   forall title status,
     TaskService.update_task uuid4 task_id title status repo = (Ok None, repo)) /\
  (Spec.reachable repo ->
   forall existing,
     Dict.get task_id repo = Some existing ->
     Spec.task_invariant existing /\ Spec.trimmed (Domain.title existing)).
Proof.
  split; [|split].
  - intros existing G (_ & B & _). split.
    + intros s Hs. apply valid_status_value in Hs as [st L].
      exists (Domain.mkTask task_id (PyStr.strip (Domain.title existing)) st).
      rewrite (update_task_present _ _ _ _ _ _ G).
      rewrite (create_ok _ _ _ _ st B L). simpl.
      repeat split; auto.
      * apply Dict_get_set_same.
      * apply Dict_keys_set_mem. exact (Dict_get_mem _ _ _ G).
    + intros new_title Hn. apply strip_nonempty_blank in Hn.
      exists (Domain.mkTask task_id (PyStr.strip new_title)
                            (Domain.status existing)).
      rewrite (update_task_present _ _ _ _ _ _ G).
      rewrite (create_ok _ _ _ _ (Domain.status existing) Hn
                         (lower_value _)). simpl.
      repeat split; auto.
      * apply Dict_get_set_same.
      * apply Dict_keys_set_mem. exact (Dict_get_mem _ _ _ G).
  - intros G ttl s. now apply update_task_absent.
  - intros R existing G.
    destruct (reachable_stored_ok repo R task_id existing G) as (_ & T & I).
    split; assumption.
Qed.

Lemma update_task_merge_witness :
  Dict.get "a" [("a", Domain.mkTask "a" "Buy milk" Domain.PENDING)]
  = Some (Domain.mkTask "a" "Buy milk" Domain.PENDING) /\
  Spec.task_invariant (Domain.mkTask "a" "Buy milk" Domain.PENDING) /\
  Spec.valid_status "Done" = true /\
  (exists t',
      TaskService.update_task "6f1c" "a" None (Some "Done")
        [("a", Domain.mkTask "a" "Buy milk" Domain.PENDING)]
      = (Ok (Some t'),
         Dict.set "a" t' [("a", Domain.mkTask "a" "Buy milk" Domain.PENDING)])
      /\ Domain.title t' = "Buy milk"
      /\ Domain.value (Domain.status t') = "done") /\
  Dict.get "b" [("a", Domain.mkTask "a" "Buy milk" Domain.PENDING)] = None /\
  TaskService.update_task "6f1c" "b" (Some "Walk") None
    [("a", Domain.mkTask "a" "Buy milk" Domain.PENDING)]
  = (Ok None, [("a", Domain.mkTask "a" "Buy milk" Domain.PENDING)]).
Proof.
  assert (I : Spec.task_invariant (Domain.mkTask "a" "Buy milk" Domain.PENDING)).
  { split; [discriminate | split; [reflexivity | now left]]. }
  split; [reflexivity|]. split; [exact I|]. split; [reflexivity|].
  split; [|split; [reflexivity|]].
  - destruct (update_task_merge "6f1c" "a"
                [("a", Domain.mkTask "a" "Buy milk" Domain.PENDING)])
      as (H & _).
    destruct (H _ eq_refl I) as (Hs & _).
    destruct (Hs "Done" eq_refl) as (t' & E & _ & Ht & _ & Hv & _).
    exists t'. repeat split; assumption.
  - apply (proj1 (proj2 (update_task_merge "6f1c" "b"
                [("a", Domain.mkTask "a" "Buy milk" Domain.PENDING)]))).
    reflexivity.
Defined.

(** A method that returns [Task(..)] allocates: the object it returns is not
    [self], and the object at [self] has the fields it had. *)
Lemma call_allocates (method : Domain.Task -> result Domain.Task)
      (self : TaskObjects.ref) (h : TaskObjects.heap) (t t' : Domain.Task) :
  TaskObjects.deref h self = Some t ->
  method t = Ok t' ->
  exists r' h',
    TaskObjects.call method self h = Some (Ok r', h') /\
    r' <> self /\
    TaskObjects.deref h' self = Some t /\
    TaskObjects.deref h' r' = Some t' /\
    (forall r, TaskObjects.deref h r <> None ->
               TaskObjects.deref h' r = TaskObjects.deref h r).
Proof.
  intros D E. exists (length h), (h ++ [t'])%list.
  unfold TaskObjects.call, TaskObjects.alloc, TaskObjects.deref in *.
  rewrite D, E.
  assert (L : self < length h) by (apply nth_error_Some; congruence).
  repeat split.
  - lia.
  - now rewrite nth_error_app1.
  - rewrite nth_error_app2, Nat.sub_diag by lia. reflexivity.
  - intros r Hr. apply nth_error_Some in Hr. now rewrite nth_error_app1.
Qed.

(** C8.  A [Task] exists only as the result of its constructor, and the
    constructor returns exactly when the title is not blank and the status
    is a member of [TaskStatus]; the task it returns carries the arguments
    and satisfies the invariant (title not empty, not all white space;
    status [PENDING] or [DONE]).  So do the tasks of the factory and the
    tasks stored by the service.  On a task that satisfies the invariant
    [mark_as_done] returns a task of the same id and title with status
    [DONE]; [update_title] returns a task of the same id and status with the
    new title when that is not blank, and raises otherwise.  Both allocate
    the task they return and leave the fields of the original as they
    were. *)
Theorem task_invariant_established :
  (forall i ttl st t,
      Domain.new_Task i ttl st = Ok t ->
      Spec.task_invariant t /\
      Domain.id t = i /\ Domain.title t = ttl /\
      st = Domain.PyStatus (Domain.status t)) /\
  (forall i ttl s,
      Spec.blank ttl = false ->
      Domain.new_Task i ttl (Domain.PyStatus s) = Ok (Domain.mkTask i ttl s)) /\
  (forall uuid4 ttl s tid t,
      Domain.TaskFactory.create uuid4 ttl s tid = Ok t ->
      Spec.task_invariant t) /\
  (forall repo k t,
      Spec.reachable repo -> Dict.get k repo = Some t ->
      Spec.task_invariant t) /\
  (forall t,
      Spec.task_invariant t ->
      Domain.mark_as_done t
      = Ok (Domain.mkTask (Domain.id t) (Domain.title t) Domain.DONE) /\
      Spec.task_invariant
        (Domain.mkTask (Domain.id t) (Domain.title t) Domain.DONE)) /\
  (forall t new_title,
      (Spec.blank new_title = false ->
       Domain.update_title t new_title
       = Ok (Domain.mkTask (Domain.id t) new_title (Domain.status t)) /\
       Spec.task_invariant
         (Domain.mkTask (Domain.id t) new_title (Domain.status t))) /\
      (Spec.blank new_title = true ->
       exists msg, Domain.update_title t new_title = Raise (ValueError msg))) /\
  (forall h self t,
      TaskObjects.deref h self = Some t ->
      Spec.task_invariant t ->
      exists r' h',
        TaskObjects.call Domain.mark_as_done self h = Some (Ok r', h') /\
        r' <> self /\
        TaskObjects.deref h' self = Some t /\
        TaskObjects.deref h' r'
        = Some (Domain.mkTask (Domain.id t) (Domain.title t) Domain.DONE)) /\
  (forall h self t new_title,
      TaskObjects.deref h self = Some t ->
      Spec.blank new_title = false ->
      exists r' h',
        TaskObjects.call (fun o => Domain.update_title o new_title) self h
        = Some (Ok r', h') /\
        r' <> self /\
        TaskObjects.deref h' self = Some t /\
        TaskObjects.deref h' r'
        = Some (Domain.mkTask (Domain.id t) new_title (Domain.status t))).
Proof.
  repeat apply conj.
  - intros i ttl st t H. apply new_Task_inv in H as (B & Hst & Ht).
    destruct t as [i' ttl' s']. simpl in *. injection Ht as -> ->.
    split; [now apply task_invariant_mk | auto].
  - intros. now apply new_Task_ok.
  - intros uuid4 ttl s tid t H.
    destruct (create_cases uuid4 ttl s tid)
      as [(B & st & _ & E) | (_ & msg & E)]; rewrite E in H; [|discriminate].
    injection H as <-. apply task_invariant_mk. now rewrite blank_strip.
  - intros repo k t R G. now apply (reachable_stored_ok repo R k t G).
  - intros t (_ & B & _). split.
    + now apply new_Task_ok.
    + now apply task_invariant_mk.
  - intros t new_title. split.
    + intros B. split; [now apply new_Task_ok | now apply task_invariant_mk].
    + intros B. eexists. now apply new_Task_blank.
  - intros h self t D (_ & B & _).
    destruct (call_allocates Domain.mark_as_done self h t _ D
                (new_Task_ok _ _ Domain.DONE B))
      as (r' & h' & H1 & H2 & H3 & H4 & _).
    exists r', h'. auto.
  - intros h self t new_title D B.
    destruct (call_allocates (fun o => Domain.update_title o new_title)
                self h t _ D (new_Task_ok _ _ (Domain.status t) B))
      as (r' & h' & H1 & H2 & H3 & H4 & _).
    exists r', h'. auto.
Qed.

Lemma task_invariant_established_witness :
  Spec.task_invariant (Domain.mkTask "a" "Buy milk" Domain.PENDING) /\
  Domain.new_Task "a" "Buy milk" (Domain.PyStatus Domain.PENDING)
  = Ok (Domain.mkTask "a" "Buy milk" Domain.PENDING) /\
  Domain.mark_as_done (Domain.mkTask "a" "Buy milk" Domain.PENDING)
  = Ok (Domain.mkTask "a" "Buy milk" Domain.DONE) /\
  Domain.update_title (Domain.mkTask "a" "Buy milk" Domain.PENDING) "Buy tea"
  = Ok (Domain.mkTask "a" "Buy tea" Domain.PENDING).
Proof.
  destruct task_invariant_established
    as (H1 & H2 & _ & _ & H5 & H6 & _).
  assert (E := H2 "a" "Buy milk" Domain.PENDING eq_refl).
  assert (I := proj1 (H1 _ _ _ _ E)).
  split; [exact I|]. split; [exact E|]. split.
  - exact (proj1 (H5 _ I)).
  - exact (proj1 (proj1 (H6 (Domain.mkTask "a" "Buy milk" Domain.PENDING)
                            "Buy tea") eq_refl)).
Defined.

(* ================================================================== *)
(** ** GET /tasks *)

Lemma contains_valid_status (s : string) :
  PyStr.contains (PyStr.lower s) ["pending"; "done"] = Spec.valid_status s.
Proof.
  simpl. rewrite orb_false_r.
  destruct (Spec.valid_status s) eqn:V.
  - apply valid_status_lower in V. apply orb_true_iff.
    destruct V as [V|V]; [left | right]; now apply String.eqb_eq.
  - apply invalid_status_lower in V as [V1 V2].
    apply String.eqb_neq in V1, V2. now rewrite V1, V2.
Qed.

Lemma valid_status_truthy (s : string) :
  Spec.valid_status s = true -> PyStr.truthy s = true.
Proof. destruct s; [discriminate | reflexivity]. Qed.

(** X16.  With a filter that is 'pending' or 'done' up to case,
    [GET /tasks] answers 200 with the representations of the tasks of that
    status, in the order of the store, and leaves the store as it was. *)
Lemma GET_tasks_valid_filter (s : string) (repo : Repo) :
  Spec.valid_status s = true ->
  FastapiApp.GET_tasks (Some s) repo
  = (FastapiApp.Content 200
       (map (fun task => FastapiApp.TaskResponse_of (Domain.to_dict task))
            (filter (fun t => Spec.eq_ignore_case
                                (Domain.value (Domain.status t)) s)
                    (Dict.values repo))),
     repo).
Proof.
  intros V. assert (F := get_tasks_by_status_eq s repo).
  unfold FastapiApp.GET_tasks, FastapiApp.route, FastapiApp.get_tasks,
    St.try_except, St.bind.
  rewrite (valid_status_truthy s V), contains_valid_status, V.
  cbn [negb]. unfold St.ret at 1. cbv beta iota. rewrite F. reflexivity.
Qed.

(** X26.  Without a filter, and with a filter whose value is the empty
    string, [GET /tasks] answers 200 with the representation of every stored
    task, in the order of the store, and leaves the store as it was. *)
Lemma GET_tasks_no_filter (status : option string) (repo : Repo) :
  status = None \/ status = Some EmptyString ->
  FastapiApp.GET_tasks status repo
  = (FastapiApp.Content 200
       (map (fun task => FastapiApp.TaskResponse_of (Domain.to_dict task))
            (Dict.values repo)),
     repo).
Proof. intros [-> | ->]; reflexivity. Qed.

(** The sibling endpoint [update_task], where [status] is the module and
    [except HTTPException: raise] stands before [except Exception], turns
    the [ValueError] of an invalid status into 400 and an id that is not
    stored into 404.  (Over HTTP a body with such a status builds no request
    model and is answered 422 before the endpoint runs, see
    [PUT_task_body].) *)
Lemma PUT_task_invalid_status_400 (uuid4 task_id s : string)
      (ttl : option string) (repo : Repo) (existing : Domain.Task) :
  Dict.get task_id repo = Some existing ->
  Spec.valid_status s = false ->
  FastapiApp.PUT_task uuid4 task_id
    (FastapiApp.mkUpdateTaskRequest ttl (Some s)) repo
  = (FastapiApp.Error 400
       ("Invalid status '" ++ s ++ "'. Must be 'pending' or 'done'"),
     repo).
Proof.
  intros G V.
  unfold FastapiApp.PUT_task, FastapiApp.route, FastapiApp.update_task,
    St.try_except, St.bind.
  simpl. rewrite (update_task_present _ _ _ _ _ _ G).
  now rewrite (create_invalid_status _ _ _ _ V).
Qed.

Lemma PUT_task_absent_404 (uuid4 task_id : string)
      (request : FastapiApp.UpdateTaskRequest) (repo : Repo) :
  Dict.get task_id repo = None ->
  FastapiApp.PUT_task uuid4 task_id request repo
  = (FastapiApp.Error 404 ("Task with id '" ++ task_id ++ "' not found"),
     repo).
Proof.
  intros G.
  unfold FastapiApp.PUT_task, FastapiApp.route, FastapiApp.update_task,
    St.try_except, St.bind.
  now rewrite (update_task_absent _ _ _ _ _ G).
Qed.

(** The scenario of the specification: create, read, update, delete, read. *)
Example scenario_buy_milk :
  let r0 := MemoryTaskRepository.init in
  let '(a1, r1) :=
    FastapiApp.POST_tasks "X" (FastapiApp.mkCreateTaskRequest "Buy milk" "pending")
                          r0 in
  let '(a2, r2) := FastapiApp.GET_task "X" r1 in
  let '(a3, r3) :=
    FastapiApp.PUT_task "Y" "X" (FastapiApp.mkUpdateTaskRequest None (Some "done"))
                        r2 in
  let '(a4, r4) := FastapiApp.DELETE_task "X" r3 in
  let '(a5, r5) := FastapiApp.GET_task "X" r4 in
  a1 = FastapiApp.Content 201 (FastapiApp.mkTaskResponse "X" "Buy milk" "pending") /\
  a2 = FastapiApp.Content 200 (FastapiApp.mkTaskResponse "X" "Buy milk" "pending") /\
  a3 = FastapiApp.Content 200 (FastapiApp.mkTaskResponse "X" "Buy milk" "done") /\
  a4 = FastapiApp.Content 204 tt /\
  a5 = FastapiApp.Error 404 "Task with id 'X' not found" /\
  r5 = MemoryTaskRepository.init.
Proof. vm_compute. repeat split. Qed.

(** C1.  What the code does where the claim promises 400: for a filter that
    is not empty and not 'pending' or 'done' up to case, evaluating
    [status.HTTP_400_BAD_REQUEST] raises an [AttributeError], the handler of
    [except Exception] raises another one on
    [status.HTTP_500_INTERNAL_SERVER_ERROR], and the client receives 500
    Internal Server Error; the repository is left as it was. *)
Theorem GET_tasks_invalid_filter_500 (s : string) (repo : Repo) :
  PyStr.truthy s = true ->
  Spec.valid_status s = false ->
  FastapiApp.get_tasks (Some s) repo
  = (Raise (AttributeError
              "'str' object has no attribute 'HTTP_500_INTERNAL_SERVER_ERROR'"),
     repo) /\
  FastapiApp.GET_tasks (Some s) repo
  = (FastapiApp.Error 500 "Internal Server Error", repo) /\
  FastapiApp.status_code (fst (FastapiApp.GET_tasks (Some s) repo)) <> 400.
Proof.
  intros T V.
  assert (E : FastapiApp.get_tasks (Some s) repo
              = (Raise (AttributeError
                   "'str' object has no attribute 'HTTP_500_INTERNAL_SERVER_ERROR'"),
                 repo)).
  { unfold FastapiApp.get_tasks, St.try_except.
    rewrite T, contains_valid_status, V. reflexivity. }
  split; [exact E|].
  unfold FastapiApp.GET_tasks, FastapiApp.route. rewrite E. simpl.
  split; [reflexivity | discriminate].
Qed.

Lemma GET_tasks_invalid_filter_500_witness :
  PyStr.truthy "xyz" = true /\
  Spec.valid_status "xyz" = false /\
  FastapiApp.GET_tasks (Some "xyz") MemoryTaskRepository.init
  = (FastapiApp.Error 500 "Internal Server Error", MemoryTaskRepository.init).
Proof.
  split; [reflexivity | split; [reflexivity|]].
  apply (GET_tasks_invalid_filter_500 "xyz" MemoryTaskRepository.init);
    reflexivity.
Defined.

(* ================================================================== *)
(** ** Further properties: the entity and the factory *)

Lemma strip_eq_blank (a b : string) :
  PyStr.strip a = PyStr.strip b -> Spec.blank a = Spec.blank b.
Proof.
  intros E. rewrite <- (blank_strip a), <- (blank_strip b). now rewrite E.
Qed.

(** X1.  [from_dict] undoes [to_dict] up to trimming: on the dictionary of a
    task that satisfies the invariant it returns the task with the same id
    and status and the trimmed title, hence the task itself when its title
    is trimmed; the oracle of fresh ids is not consulted. *)
Theorem from_dict_to_dict (uuid4 : string) (t : Domain.Task) :
  Spec.task_invariant t ->
  Domain.TaskFactory.from_dict uuid4
    (Domain.TaskFactory.data_of_dict (Domain.to_dict t))
  = Ok (Domain.mkTask (Domain.id t) (PyStr.strip (Domain.title t))
                      (Domain.status t)) /\
  (Spec.trimmed (Domain.title t) ->
   Domain.TaskFactory.from_dict uuid4
     (Domain.TaskFactory.data_of_dict (Domain.to_dict t))
   = Ok t).
Proof.
  intros (_ & B & _).
  assert (E : Domain.TaskFactory.from_dict uuid4
                (Domain.TaskFactory.data_of_dict (Domain.to_dict t))
              = Ok (Domain.mkTask (Domain.id t) (PyStr.strip (Domain.title t))
                                  (Domain.status t))).
  { unfold Domain.TaskFactory.from_dict. simpl.
    now rewrite (create_ok _ _ _ _ (Domain.status t) B (lower_value _)). }
  split; [exact E|].
  intros T. rewrite E, T. now destruct t.
Qed.

Lemma from_dict_to_dict_witness :
  Spec.task_invariant (Domain.mkTask "a" "Buy milk" Domain.DONE) /\
  Domain.TaskFactory.from_dict "6f1c"
    (Domain.TaskFactory.data_of_dict
       (Domain.to_dict (Domain.mkTask "a" "Buy milk" Domain.DONE)))
  = Ok (Domain.mkTask "a" "Buy milk" Domain.DONE).
Proof.
  assert (I : Spec.task_invariant (Domain.mkTask "a" "Buy milk" Domain.DONE)).
  { split; [discriminate | split; [reflexivity | now right]]. }
  split; [exact I|].
  exact (proj1 (from_dict_to_dict "6f1c" _ I)).
Defined.

(** X2.  [from_dict] on a mapping without the key 'title', whose keys
    'status' and 'id' are each absent or hold a string, raises a
    [ValueError], whatever those strings are: the default title is the
    empty string. *)
Theorem from_dict_without_title (uuid4 : string)
        (data : Domain.TaskFactory.TaskData) :
  Domain.TaskFactory.data_title data = None ->
  exists msg,
    Domain.TaskFactory.from_dict uuid4 data = Raise (ValueError msg).
Proof.
  intros E. unfold Domain.TaskFactory.from_dict. rewrite E. simpl.
  match goal with
  | |- context [Domain.TaskFactory.create ?u ?a ?b ?c] =>
      destruct (create_cases u a b c) as [(B & _) | (_ & msg & H)]
  end; [discriminate | eauto].
Qed.

Lemma from_dict_without_title_witness :
  exists msg,
    Domain.TaskFactory.from_dict "6f1c"
      (Domain.TaskFactory.mkTaskData None (Some "done") (Some "a"))
    = Raise (ValueError msg).
Proof.
  apply (from_dict_without_title "6f1c"
           (Domain.TaskFactory.mkTaskData None (Some "done") (Some "a"))).
  reflexivity.
Defined.

(** X3.  [from_dict] on a mapping with a title that is not blank and without
    the key 'status' returns a pending task, with the id of the mapping or,
    when that is missing too, the fresh one. *)
Theorem from_dict_default_status (uuid4 ttl : string)
        (data : Domain.TaskFactory.TaskData) :
  Domain.TaskFactory.data_title data = Some ttl ->
  PyStr.strip ttl <> EmptyString ->
  Domain.TaskFactory.data_status data = None ->
  Domain.TaskFactory.from_dict uuid4 data
  = Ok (Domain.mkTask
          (match Domain.TaskFactory.data_id data with
           | Some i => i
           | None => uuid4
           end)
          (PyStr.strip ttl) Domain.PENDING).
Proof.
  intros Et B Es. apply strip_nonempty_blank in B.
  unfold Domain.TaskFactory.from_dict. rewrite Et, Es. simpl.
  now rewrite (create_ok uuid4 ttl "pending" _ Domain.PENDING B eq_refl).
Qed.

Lemma from_dict_default_status_witness :
  Domain.TaskFactory.from_dict "6f1c"
    (Domain.TaskFactory.mkTaskData (Some " Walk ") None None)
  = Ok (Domain.mkTask "6f1c" "Walk" Domain.PENDING).
Proof.
  apply (from_dict_default_status "6f1c" " Walk "
           (Domain.TaskFactory.mkTaskData (Some " Walk ") None None));
    [reflexivity | discriminate | reflexivity].
Defined.

(** X4.  The factory is idempotent: given the title, the status value and
    the id of a task it has returned, it returns that task again. *)
Theorem create_idempotent (uuid4 uuid4' ttl s : string) (tid : option string)
        (t : Domain.Task) :
  Domain.TaskFactory.create uuid4 ttl s tid = Ok t ->
  Domain.TaskFactory.create uuid4' (Domain.title t)
    (Domain.value (Domain.status t)) (Some (Domain.id t))
  = Ok t.
Proof.
  intros H.
  destruct (create_cases uuid4 ttl s tid)
    as [(B & st & _ & E) | (_ & msg & E)]; rewrite E in H; [|discriminate].
  injection H as <-. simpl.
  rewrite (create_ok uuid4' _ _ _ st); [| now rewrite blank_strip
                                         | apply lower_value].
  now rewrite strip_idem.
Qed.

Lemma create_idempotent_witness :
  Domain.TaskFactory.create "6f1c" "  Buy milk " "DONE" None
  = Ok (Domain.mkTask "6f1c" "Buy milk" Domain.DONE) /\
  Domain.TaskFactory.create "77aa" "Buy milk" "done" (Some "6f1c")
  = Ok (Domain.mkTask "6f1c" "Buy milk" Domain.DONE).
Proof.
  split; [reflexivity|].
  apply (create_idempotent "6f1c" "77aa" "  Buy milk " "DONE" None
           (Domain.mkTask "6f1c" "Buy milk" Domain.DONE)).
  reflexivity.
Defined.

(** X5.  The factory sees a title up to the white space around it and a
    status up to case: two inputs that agree so far give the same task. *)
Theorem create_up_to_trim_and_case (uuid4 t1 t2 s1 s2 : string)
        (tid : option string) (t : Domain.Task) :
  PyStr.strip t1 = PyStr.strip t2 ->
  Spec.eq_ignore_case s1 s2 = true ->
  Domain.TaskFactory.create uuid4 t1 s1 tid = Ok t ->
  Domain.TaskFactory.create uuid4 t2 s2 tid = Ok t.
Proof.
  intros Et Es H. apply eq_ignore_case_lower in Es.
  destruct (create_cases uuid4 t1 s1 tid)
    as [(B & st & L & E) | (_ & msg & E)]; rewrite E in H; [|discriminate].
  injection H as <-. rewrite Et.
  apply create_ok; [now rewrite <- (strip_eq_blank _ _ Et) | congruence].
Qed.

Lemma create_up_to_trim_and_case_witness :
  PyStr.strip " Walk" = PyStr.strip "Walk  " /\
  Spec.eq_ignore_case "Done" "dONE" = true /\
  Domain.TaskFactory.create "6f1c" "Walk  " "dONE" None
  = Ok (Domain.mkTask "6f1c" "Walk" Domain.DONE).
Proof.
  split; [reflexivity | split; [reflexivity|]].
  apply (create_up_to_trim_and_case "6f1c" " Walk" "Walk  " "Done" "dONE" None);
    reflexivity.
Defined.

(** X6.  On a task that satisfies the invariant and a new title that is not
    blank, [mark_as_done] and [update_title] commute, and either order gives
    the task of the same id with the new title and status [DONE];
    [mark_as_done] applied twice is [mark_as_done] applied once. *)
Theorem change_operations_compose (t : Domain.Task) (new_title : string) :
  Spec.task_invariant t ->
  Spec.blank new_title = false ->
  Res.bind (Domain.mark_as_done t)
           (fun t1 => Domain.update_title t1 new_title)
  = Ok (Domain.mkTask (Domain.id t) new_title Domain.DONE) /\
  Res.bind (Domain.update_title t new_title) Domain.mark_as_done
  = Ok (Domain.mkTask (Domain.id t) new_title Domain.DONE) /\
  Res.bind (Domain.mark_as_done t) Domain.mark_as_done
  = Domain.mark_as_done t.
Proof.
  intros (_ & B & _) Bn.
  unfold Domain.mark_as_done, Domain.update_title.
  rewrite (new_Task_ok _ _ _ B), (new_Task_ok _ _ _ Bn). simpl.
  rewrite (new_Task_ok _ _ _ B), (new_Task_ok _ _ _ Bn). auto.
Qed.

Lemma change_operations_compose_witness :
  Spec.task_invariant (Domain.mkTask "a" "Buy milk" Domain.PENDING) /\
  Spec.blank "Buy tea" = false /\
  Res.bind (Domain.mark_as_done (Domain.mkTask "a" "Buy milk" Domain.PENDING))
           (fun t1 => Domain.update_title t1 "Buy tea")
  = Ok (Domain.mkTask "a" "Buy tea" Domain.DONE).
Proof.
  assert (I : Spec.task_invariant (Domain.mkTask "a" "Buy milk" Domain.PENDING)).
  { split; [discriminate | split; [reflexivity | now left]]. }
  split; [exact I | split; [reflexivity|]].
  exact (proj1 (change_operations_compose _ "Buy tea" I eq_refl)).
Defined.

(* ================================================================== *)
(** ** Further properties: the repository and the service *)

Section MoreDictFacts.
Context {V : Type}.
Implicit Types (k : string) (v : V) (d : Dict.t V).

Lemma Dict_set_same_value k v d : Dict.get k d = Some v -> Dict.set k v d = d.
Proof.
  induction d as [|[k' v'] d IH]; simpl; [discriminate|].
  destruct (String.eqb_spec k k') as [<-|N].
  - now intros [= ->].
  - intros H. now rewrite IH.
Qed.

Lemma Dict_set_set k v1 v2 d :
  Dict.set k v2 (Dict.set k v1 d) = Dict.set k v2 d.
Proof.
  induction d as [|[k' v'] d IH]; simpl.
  - now rewrite String.eqb_refl.
  - destruct (k =? k') eqn:E; simpl; rewrite ?String.eqb_refl, ?E, ?IH; auto.
Qed.

Lemma Dict_get_In k v d : Dict.get k d = Some v -> In (k, v) d.
Proof.
  induction d as [|[k' v'] d IH]; simpl; [discriminate|].
  destruct (String.eqb_spec k k') as [<-|N].
  - intros [= ->]. now left.
  - intros H. right. now apply IH.
Qed.

Lemma Dict_In_get k v d :
  NoDup (Dict.keys d) -> In (k, v) d -> Dict.get k d = Some v.
Proof.
  induction d as [|[k' v'] d IH]; simpl; [tauto|].
  intros H [E|Hin]; inversion H as [|? ? Hn Hd]; subst.
  - injection E as -> ->. now rewrite String.eqb_refl.
  - destruct (String.eqb_spec k k') as [<-|N]; [|now apply IH].
    exfalso. apply Hn. unfold Dict.keys.
    change k with (fst (k, v)). now apply in_map.
Qed.

Lemma Dict_values_set_new k v d :
  Dict.mem k d = false ->
  Dict.values (Dict.set k v d) = (Dict.values d ++ [v])%list.
Proof.
  intros H. rewrite (Dict_set_new _ _ _ H).
  unfold Dict.values. now rewrite map_app.
Qed.

Lemma Dict_get_not_None k d : Dict.get k d <> None -> Dict.mem k d = true.
Proof.
  intros H. destruct (Dict.get k d) as [v|] eqn:G; [|contradiction].
  exact (Dict_get_mem _ _ _ G).
Qed.

End MoreDictFacts.

(** X7.  [save] keeps the order of insertion: a task with a new id goes to
    the end of what [find_all] lists; a task whose id is stored replaces the
    stored one where it stands, the ids and their order staying as they
    were.  The tasks at other ids are not touched, and saving the same task
    again changes nothing. *)
Theorem save_insertion_order (task : Domain.Task) (repo : Repo) :
  exists repo',
    MemoryTaskRepository.save task repo = (Ok task, repo') /\
    (Dict.get (Domain.id task) repo = None ->
     MemoryTaskRepository.find_all repo'
     = (Ok (Dict.values repo ++ [task])%list, repo')) /\
    (Dict.get (Domain.id task) repo <> None ->
     Dict.keys repo' = Dict.keys repo) /\
    (forall k, k <> Domain.id task -> Dict.get k repo' = Dict.get k repo) /\
    MemoryTaskRepository.save task repo' = (Ok task, repo').
Proof.
  exists (Dict.set (Domain.id task) task repo).
  unfold MemoryTaskRepository.save, MemoryTaskRepository.find_all.
  repeat split.
  - intros G. apply Dict_mem_get in G. now rewrite Dict_values_set_new.
  - intros G. apply Dict_keys_set_mem. now apply Dict_get_not_None.
  - intros k N. apply Dict_get_set_other. auto.
  - now rewrite Dict_set_set.
Qed.

(** X8.  [update] of the repository, for a task whose id is stored, does
    what [save] does: it returns the task, [find_by_id] then returns it, and
    the ids and their order are as before. *)
Theorem repository_update_present (task : Domain.Task) (repo : Repo) :
  Dict.get (Domain.id task) repo <> None ->
  exists repo',
    MemoryTaskRepository.update task repo = (Ok (Some task), repo') /\
    MemoryTaskRepository.save task repo = (Ok task, repo') /\
    MemoryTaskRepository.find_by_id (Domain.id task) repo'
    = (Ok (Some task), repo') /\
    Dict.keys repo' = Dict.keys repo.
Proof.
  intros G. apply Dict_get_not_None in G.
  exists (Dict.set (Domain.id task) task repo).
  unfold MemoryTaskRepository.update, MemoryTaskRepository.save,
    MemoryTaskRepository.find_by_id.
  rewrite G, Dict_get_set_same. simpl.
  repeat split. now apply Dict_keys_set_mem.
Qed.

Lemma repository_update_present_witness :
  Dict.get "a" [("a", Domain.mkTask "a" "Buy milk" Domain.PENDING);
                ("b", Domain.mkTask "b" "Walk" Domain.DONE)] <> None /\
  MemoryTaskRepository.update (Domain.mkTask "a" "Buy tea" Domain.DONE)
    [("a", Domain.mkTask "a" "Buy milk" Domain.PENDING);
     ("b", Domain.mkTask "b" "Walk" Domain.DONE)]
  = (Ok (Some (Domain.mkTask "a" "Buy tea" Domain.DONE)),
     [("a", Domain.mkTask "a" "Buy tea" Domain.DONE);
      ("b", Domain.mkTask "b" "Walk" Domain.DONE)]).
Proof.
  split; [discriminate|].
  destruct (repository_update_present
              (Domain.mkTask "a" "Buy tea" Domain.DONE)
              [("a", Domain.mkTask "a" "Buy milk" Domain.PENDING);
               ("b", Domain.mkTask "b" "Walk" Domain.DONE)])
    as (repo' & H & _); [discriminate|].
  reflexivity.
Defined.

(** X9.  [delete] of an id that is stored returns [True]; afterwards
    [find_by_id] finds nothing at the id, the tasks at the other ids are as
    before, and, the ids of the store being distinct, exactly the entry of
    the id has left the sequence of entries. *)
Theorem delete_present (task_id : string) (repo : Repo) (t : Domain.Task) :
  Dict.get task_id repo = Some t ->
  exists repo',
    MemoryTaskRepository.delete task_id repo = (Ok true, repo') /\
    MemoryTaskRepository.find_by_id task_id repo' = (Ok None, repo') /\
    (forall k, k <> task_id -> Dict.get k repo' = Dict.get k repo) /\
    (NoDup (Dict.keys repo) ->
     exists d1 d2,
       repo = (d1 ++ (task_id, t) :: d2)%list /\ repo' = (d1 ++ d2)%list).
Proof.
  intros G. exists (Dict.del task_id repo).
  unfold MemoryTaskRepository.delete, MemoryTaskRepository.find_by_id.
  rewrite (Dict_get_mem _ _ _ G).
  repeat split.
  - f_equal. f_equal. apply Dict_mem_get. apply Dict_mem_del.
  - intros k N. apply Dict_get_del_other. auto.
  - intros ND. now apply Dict_del_NoDup_split.
Qed.

Lemma delete_present_witness :
  Dict.get "a" [("a", Domain.mkTask "a" "Buy milk" Domain.PENDING);
                ("b", Domain.mkTask "b" "Walk" Domain.DONE)]
  = Some (Domain.mkTask "a" "Buy milk" Domain.PENDING) /\
  MemoryTaskRepository.delete "a"
    [("a", Domain.mkTask "a" "Buy milk" Domain.PENDING);
     ("b", Domain.mkTask "b" "Walk" Domain.DONE)]
  = (Ok true, [("b", Domain.mkTask "b" "Walk" Domain.DONE)]).
Proof.
  split; [reflexivity|].
  destruct (delete_present "a"
              [("a", Domain.mkTask "a" "Buy milk" Domain.PENDING);
               ("b", Domain.mkTask "b" "Walk" Domain.DONE)]
              (Domain.mkTask "a" "Buy milk" Domain.PENDING) eq_refl)
    as (repo' & H & _).
  reflexivity.
Defined.

(** X10.  When [create_task] returns a task, its id is the fresh one,
    [get_task_by_id] finds it there and the tasks at other ids are as
    before.  If the id was not stored the task is the last of what
    [get_all_tasks] lists; if the fresh id collides with a stored one, the
    stored task is replaced and no entry is added. *)
Theorem create_task_stores (uuid4 ttl s : string) (repo repo' : Repo)
        (t : Domain.Task) :
  TaskService.create_task uuid4 ttl s repo = (Ok t, repo') ->
  Domain.id t = uuid4 /\
  TaskService.get_task_by_id uuid4 repo' = (Ok (Some t), repo') /\
  (forall k, k <> uuid4 -> Dict.get k repo' = Dict.get k repo) /\
  (Dict.get uuid4 repo = None ->
   TaskService.get_all_tasks repo'
   = (Ok (Dict.values repo ++ [t])%list, repo')) /\
  (Dict.get uuid4 repo <> None -> Dict.keys repo' = Dict.keys repo).
Proof.
  rewrite create_task_unfold.
  destruct (create_cases uuid4 ttl s None)
    as [(B & st & _ & E) | (_ & msg & E)]; rewrite E; [|discriminate].
  simpl. intros [= <- <-]. simpl.
  unfold TaskService.get_task_by_id, TaskService.get_all_tasks,
    MemoryTaskRepository.find_by_id, MemoryTaskRepository.find_all.
  rewrite Dict_get_set_same. repeat split.
  - intros k N. apply Dict_get_set_other. auto.
  - intros G. apply Dict_mem_get in G. now rewrite Dict_values_set_new.
  - intros G. apply Dict_keys_set_mem. now apply Dict_get_not_None.
Qed.

Lemma create_task_stores_witness :
  TaskService.create_task "6f1c" " Walk " "DONE"
    [("a", Domain.mkTask "a" "Buy milk" Domain.PENDING)]
  = (Ok (Domain.mkTask "6f1c" "Walk" Domain.DONE),
     [("a", Domain.mkTask "a" "Buy milk" Domain.PENDING);
      ("6f1c", Domain.mkTask "6f1c" "Walk" Domain.DONE)]) /\
  TaskService.get_task_by_id "6f1c"
    [("a", Domain.mkTask "a" "Buy milk" Domain.PENDING);
     ("6f1c", Domain.mkTask "6f1c" "Walk" Domain.DONE)]
  = (Ok (Some (Domain.mkTask "6f1c" "Walk" Domain.DONE)),
     [("a", Domain.mkTask "a" "Buy milk" Domain.PENDING);
      ("6f1c", Domain.mkTask "6f1c" "Walk" Domain.DONE)]).
Proof.
  split; [reflexivity|].
  apply (create_task_stores "6f1c" " Walk " "DONE"
           [("a", Domain.mkTask "a" "Buy milk" Domain.PENDING)]).
  reflexivity.
Defined.

(** X11.  [update_task] with neither a title nor a status is no change: for
    a stored task that sits at its own id, satisfies the invariant and has a
    trimmed title (as every task stored by the service does) it returns that
    task and leaves the repository as it was. *)
Theorem update_task_no_fields (uuid4 task_id : string) (repo : Repo)
        (existing : Domain.Task) :
  Dict.get task_id repo = Some existing ->
  Domain.id existing = task_id ->
  Spec.task_invariant existing ->
  Spec.trimmed (Domain.title existing) ->
  TaskService.update_task uuid4 task_id None None repo
  = (Ok (Some existing), repo).
Proof.
  intros G Hid (_ & B & _) T.
  rewrite (update_task_present _ _ _ _ _ _ G).
  rewrite (create_ok _ _ _ _ (Domain.status existing) B (lower_value _)).
  rewrite T, <- Hid.
  replace (Domain.mkTask (Domain.id existing) (Domain.title existing)
                         (Domain.status existing))
    with existing by now destruct existing.
  rewrite Hid. now rewrite (Dict_set_same_value _ _ _ G).
Qed.

Lemma update_task_no_fields_witness :
  TaskService.update_task "6f1c" "a" None None
    [("a", Domain.mkTask "a" "Buy milk" Domain.PENDING)]
  = (Ok (Some (Domain.mkTask "a" "Buy milk" Domain.PENDING)),
     [("a", Domain.mkTask "a" "Buy milk" Domain.PENDING)]).
Proof.
  apply (update_task_no_fields "6f1c" "a"
           [("a", Domain.mkTask "a" "Buy milk" Domain.PENDING)]
           (Domain.mkTask "a" "Buy milk" Domain.PENDING));
    [reflexivity | reflexivity | | reflexivity].
  split; [discriminate | split; [reflexivity | now left]].
Defined.

(** X12.  Whatever its arguments and whatever it returns or raises,
    [update_task] adds no id, removes none and moves none, and it leaves
    the tasks at the other ids as they were. *)
Theorem update_task_keeps_ids (uuid4 task_id : string)
        (ttl s : option string) (repo : Repo) :
  Dict.keys (snd (TaskService.update_task uuid4 task_id ttl s repo))
  = Dict.keys repo /\
  (forall k, k <> task_id ->
             Dict.get k (snd (TaskService.update_task uuid4 task_id ttl s repo))
             = Dict.get k repo).
Proof.
  destruct (Dict.get task_id repo) as [existing|] eqn:G.
  - rewrite (update_task_present _ _ _ _ _ _ G).
    match goal with
    | |- context [Domain.TaskFactory.create ?u ?a ?b ?c] =>
        destruct (Domain.TaskFactory.create u a b c) as [t'|e]
    end; simpl; [|auto].
    split.
    + apply Dict_keys_set_mem. exact (Dict_get_mem _ _ _ G).
    + intros k N. apply Dict_get_set_other. auto.
  - rewrite (update_task_absent _ _ _ _ _ G). auto.
Qed.

(** X13.  The service fails cleanly: an exception that leaves [create_task]
    or [update_task] is a [ValueError], and the repository is then as it was
    before the call. *)
Theorem service_failure_leaves_store (uuid4 : string) (repo repo' : Repo)
        (e : exn) :
  (forall ttl s,
      TaskService.create_task uuid4 ttl s repo = (Raise e, repo') ->
      is_ValueError e = true /\ repo' = repo) /\
  (forall task_id ttl s,
      TaskService.update_task uuid4 task_id ttl s repo = (Raise e, repo') ->
      is_ValueError e = true /\ repo' = repo).
Proof.
  split.
  - intros ttl s. rewrite create_task_unfold.
    destruct (create_cases uuid4 ttl s None)
      as [(B & st & _ & E) | (_ & msg & E)]; rewrite E; [discriminate|].
    intros [= <- <-]. auto.
  - intros task_id ttl s.
    destruct (Dict.get task_id repo) as [existing|] eqn:G.
    + rewrite (update_task_present _ _ _ _ _ _ G).
      match goal with
      | |- context [Domain.TaskFactory.create ?u ?a ?b ?c] =>
          destruct (create_cases u a b c)
            as [(B & st & _ & E) | (_ & msg & E)]; rewrite E
      end; [discriminate|].
      intros [= <- <-]. auto.
    + rewrite (update_task_absent _ _ _ _ _ G). discriminate.
Qed.

Lemma service_failure_leaves_store_witness :
  TaskService.update_task "6f1c" "a" (Some "Walk") (Some "started")
    [("a", Domain.mkTask "a" "Buy milk" Domain.PENDING)]
  = (Raise (ValueError "Invalid status 'started'. Must be 'pending' or 'done'"),
     [("a", Domain.mkTask "a" "Buy milk" Domain.PENDING)]) /\
  is_ValueError
    (ValueError "Invalid status 'started'. Must be 'pending' or 'done'") = true.
Proof.
  split; [reflexivity|].
  apply (proj2 (service_failure_leaves_store "6f1c"
                  [("a", Domain.mkTask "a" "Buy milk" Domain.PENDING)]
                  [("a", Domain.mkTask "a" "Buy milk" Domain.PENDING)]
                  (ValueError
                     "Invalid status 'started'. Must be 'pending' or 'done'"))
               "a" (Some "Walk") (Some "started")).
  reflexivity.
Defined.

(** X14.  In a store the service has built, the ids are distinct, every
    task sits at its own id with a trimmed title, and [get_all_tasks] and
    [get_task_by_id] agree: a task is listed exactly when it is the one
    found at its id. *)
Theorem service_store_invariant (repo : Repo) :
  Spec.reachable repo ->
  NoDup (Dict.keys repo) /\
  (forall k t, Dict.get k repo = Some t ->
               Domain.id t = k /\ Spec.trimmed (Domain.title t)) /\
  (forall t, In t (Dict.values repo) <->
             Dict.get (Domain.id t) repo = Some t) /\
  NoDup (map Domain.id (Dict.values repo)).
Proof.
  intros R.
  assert (ND := reachable_NoDup repo R).
  assert (OK := reachable_stored_ok repo R).
  assert (In_get : forall t, In t (Dict.values repo) ->
                             Dict.get (Domain.id t) repo = Some t).
  { intros t Hin. unfold Dict.values in Hin.
    apply in_map_iff in Hin as ([k t'] & E & Hin). simpl in E. subst t'.
    assert (G := Dict_In_get _ _ _ ND Hin).
    destruct (OK _ _ G) as (-> & _). exact G. }
  split; [exact ND|]. split; [|split].
  - intros k t G. destruct (OK _ _ G) as (H1 & H2 & _). auto.
  - intros t. split; [apply In_get|].
    intros G. apply Dict_get_In in G. unfold Dict.values.
    change t with (snd (Domain.id t, t)). now apply in_map.
  - replace (map Domain.id (Dict.values repo)) with (Dict.keys repo);
      [exact ND|].
    unfold Dict.keys, Dict.values. rewrite map_map.
    apply map_ext_in. intros [k t] Hin. simpl.
    assert (G := Dict_In_get _ _ _ ND Hin).
    now destruct (OK _ _ G) as (-> & _).
Qed.

Lemma service_store_invariant_witness :
  NoDup (Dict.keys
           (snd (TaskService.create_task "6f1c" " Walk " "DONE"
                   MemoryTaskRepository.init))) /\
  Dict.get "6f1c"
    (snd (TaskService.create_task "6f1c" " Walk " "DONE"
            MemoryTaskRepository.init))
  = Some (Domain.mkTask "6f1c" "Walk" Domain.DONE).
Proof.
  split; [|reflexivity].
  apply (service_store_invariant
           (snd (TaskService.create_task "6f1c" " Walk " "DONE"
                   MemoryTaskRepository.init))).
  apply Spec.reach_create. apply Spec.reach_init.
Defined.

Lemma filter_status_length (l : list Domain.Task) (sp sd : string) :
  PyStr.lower sp = "pending" -> PyStr.lower sd = "done" ->
  length (filter (fun t => Spec.eq_ignore_case
                             (Domain.value (Domain.status t)) sp) l)
  + length (filter (fun t => Spec.eq_ignore_case
                               (Domain.value (Domain.status t)) sd) l)
  = length l.
Proof.
  intros Hp Hd. induction l as [|t l IH]; [reflexivity|].
  simpl. rewrite <- !value_eqb_lower, Hp, Hd.
  destruct (Domain.status t); simpl; lia.
Qed.

(** X15.  The two statuses split the repository: for a spelling of
    'pending' and a spelling of 'done' in any case, every listed task is in
    exactly one of the two results of [get_tasks_by_status], and their
    lengths add up to the number of tasks [find_all] lists. *)
Theorem get_tasks_by_status_partition (sp sd : string) (repo : Repo) :
  Spec.eq_ignore_case sp "pending" = true ->
  Spec.eq_ignore_case sd "done" = true ->
  exists p d,
    TaskService.get_tasks_by_status sp repo = (Ok p, repo) /\
    TaskService.get_tasks_by_status sd repo = (Ok d, repo) /\
    length p + length d = length (Dict.values repo) /\
    (forall t, In t (Dict.values repo) <-> In t p \/ In t d) /\
    (forall t, In t p -> In t d -> False).
Proof.
  intros Hp Hd. apply eq_ignore_case_lower in Hp, Hd. simpl in Hp, Hd.
  do 2 eexists.
  split; [apply get_tasks_by_status_eq|].
  split; [apply get_tasks_by_status_eq|].
  split; [now apply filter_status_length|].
  split.
  - intros t. rewrite !filter_In, <- !value_eqb_lower, Hp, Hd.
    destruct (Domain.status t); simpl; intuition discriminate.
  - intros t. rewrite !filter_In, <- !value_eqb_lower, Hp, Hd.
    destruct (Domain.status t); simpl; intuition discriminate.
Qed.

Lemma get_tasks_by_status_partition_witness :
  Spec.eq_ignore_case "Pending" "pending" = true /\
  Spec.eq_ignore_case "DONE" "done" = true /\
  exists p d,
    TaskService.get_tasks_by_status "Pending"
      [("a", Domain.mkTask "a" "Buy milk" Domain.PENDING);
       ("b", Domain.mkTask "b" "Walk" Domain.DONE)] =
    (Ok p, [("a", Domain.mkTask "a" "Buy milk" Domain.PENDING);
            ("b", Domain.mkTask "b" "Walk" Domain.DONE)]) /\
    TaskService.get_tasks_by_status "DONE"
      [("a", Domain.mkTask "a" "Buy milk" Domain.PENDING);
       ("b", Domain.mkTask "b" "Walk" Domain.DONE)] =
    (Ok d, [("a", Domain.mkTask "a" "Buy milk" Domain.PENDING);
            ("b", Domain.mkTask "b" "Walk" Domain.DONE)]) /\
    length p + length d = 2.
Proof.
  split; [reflexivity | split; [reflexivity|]].
  destruct (get_tasks_by_status_partition "Pending" "DONE"
              [("a", Domain.mkTask "a" "Buy milk" Domain.PENDING);
               ("b", Domain.mkTask "b" "Walk" Domain.DONE)]
              eq_refl eq_refl) as (p & d & H1 & H2 & H3 & _).
  exists p, d. auto.
Defined.

(* ================================================================== *)
(** ** Further properties: the HTTP adapter *)

Lemma GET_tasks_valid_filter_witness :
  Spec.valid_status "Done" = true /\
  FastapiApp.GET_tasks (Some "Done")
    [("a", Domain.mkTask "a" "Buy milk" Domain.PENDING);
     ("b", Domain.mkTask "b" "Walk" Domain.DONE)]
  = (FastapiApp.Content 200 [FastapiApp.mkTaskResponse "b" "Walk" "done"],
     [("a", Domain.mkTask "a" "Buy milk" Domain.PENDING);
      ("b", Domain.mkTask "b" "Walk" Domain.DONE)]).
Proof.
  split; [reflexivity|].
  apply (GET_tasks_valid_filter "Done"
           [("a", Domain.mkTask "a" "Buy milk" Domain.PENDING);
            ("b", Domain.mkTask "b" "Walk" Domain.DONE)]).
  reflexivity.
Defined.

Lemma POST_tasks_ok (uuid4 ttl s : string) (st : Domain.TaskStatus)
      (repo : Repo) :
  Spec.blank ttl = false -> PyStr.lower s = Domain.value st ->
  FastapiApp.POST_tasks uuid4 (FastapiApp.mkCreateTaskRequest ttl s) repo
  = (FastapiApp.Content 201
       (FastapiApp.mkTaskResponse uuid4 (PyStr.strip ttl) (Domain.value st)),
     Dict.set uuid4 (Domain.mkTask uuid4 (PyStr.strip ttl) st) repo).
Proof.
  intros B L.
  unfold FastapiApp.POST_tasks, FastapiApp.route, FastapiApp.create_task,
    St.try_except, St.bind.
  rewrite create_task_unfold. simpl.
  now rewrite (create_ok _ _ _ _ st B L).
Qed.

Lemma GET_task_found (task_id : string) (repo : Repo) (t : Domain.Task) :
  Dict.get task_id repo = Some t ->
  FastapiApp.GET_task task_id repo
  = (FastapiApp.Content 200 (FastapiApp.TaskResponse_of (Domain.to_dict t)),
     repo).
Proof.
  intros G.
  unfold FastapiApp.GET_task, FastapiApp.route, FastapiApp.get_task, St.bind,
    TaskService.get_task_by_id, MemoryTaskRepository.find_by_id.
  now rewrite G.
Qed.

Lemma GET_task_absent (task_id : string) (repo : Repo) :
  Dict.get task_id repo = None ->
  FastapiApp.GET_task task_id repo
  = (FastapiApp.Error 404 ("Task with id '" ++ task_id ++ "' not found"),
     repo).
Proof.
  intros G.
  unfold FastapiApp.GET_task, FastapiApp.route, FastapiApp.get_task, St.bind,
    TaskService.get_task_by_id, MemoryTaskRepository.find_by_id.
  now rewrite G.
Qed.

(** X17.  The two reading endpoints never write: whatever the filter or the
    id, and whether they answer 200, 404 or 500, [GET /tasks] and
    [GET /tasks/{id}] leave the store as it was; [GET /tasks/{id}] answers
    200 exactly when the id is stored, and 404 otherwise. *)
Theorem GET_never_writes (status : option string) (task_id : string)
        (repo : Repo) :
  snd (FastapiApp.GET_tasks status repo) = repo /\
  snd (FastapiApp.GET_task task_id repo) = repo /\
  FastapiApp.status_code (fst (FastapiApp.GET_task task_id repo))
  = match Dict.get task_id repo with
    | Some _ => 200
    | None => 404
    end.
Proof.
  split; [|split].
  - destruct status as [s|]; [|reflexivity].
    destruct (PyStr.truthy s) eqn:T.
    + destruct (Spec.valid_status s) eqn:V.
      * assert (F := get_tasks_by_status_eq s repo).
        unfold FastapiApp.GET_tasks, FastapiApp.route, FastapiApp.get_tasks,
          St.try_except, St.bind.
        rewrite T, contains_valid_status, V.
        cbn [negb]. unfold St.ret at 1. cbv beta iota. now rewrite F.
      * unfold FastapiApp.GET_tasks, FastapiApp.route, FastapiApp.get_tasks,
          St.try_except.
        now rewrite T, contains_valid_status, V.
    + destruct s; [reflexivity | discriminate].
  - destruct (Dict.get task_id repo) eqn:G.
    + now rewrite (GET_task_found _ _ _ G).
    + now rewrite (GET_task_absent _ _ G).
  - destruct (Dict.get task_id repo) eqn:G.
    + now rewrite (GET_task_found _ _ _ G).
    + now rewrite (GET_task_absent _ _ G).
Qed.

(** X18.  Round trip over HTTP: [POST /tasks] with a title that is not
    blank and a status that is valid up to case answers 201 with the fresh
    id, the trimmed title and the lower-cased status, and [GET /tasks/{id}]
    at that id then answers 200 with the same representation. *)
Theorem POST_then_GET (uuid4 ttl s : string) (repo : Repo) :
  PyStr.strip ttl <> EmptyString ->
  Spec.valid_status s = true ->
  exists repo',
    FastapiApp.POST_tasks uuid4 (FastapiApp.mkCreateTaskRequest ttl s) repo
    = (FastapiApp.Content 201
         (FastapiApp.mkTaskResponse uuid4 (PyStr.strip ttl) (PyStr.lower s)),
       repo') /\
    FastapiApp.GET_task uuid4 repo'
    = (FastapiApp.Content 200
         (FastapiApp.mkTaskResponse uuid4 (PyStr.strip ttl) (PyStr.lower s)),
       repo').
Proof.
  intros B V. apply strip_nonempty_blank in B.
  apply valid_status_value in V as [st L].
  eexists. split.
  - rewrite (POST_tasks_ok _ _ _ st repo B L). rewrite L. reflexivity.
  - rewrite (GET_task_found uuid4 _ (Domain.mkTask uuid4 (PyStr.strip ttl) st)).
    + unfold FastapiApp.TaskResponse_of. simpl. now rewrite L.
    + apply Dict_get_set_same.
Qed.

Lemma POST_then_GET_witness :
  PyStr.strip " Buy milk" <> EmptyString /\
  Spec.valid_status "PENDING" = true /\
  exists repo',
    FastapiApp.POST_tasks "6f1c"
      (FastapiApp.mkCreateTaskRequest " Buy milk" "PENDING")
      MemoryTaskRepository.init
    = (FastapiApp.Content 201
         (FastapiApp.mkTaskResponse "6f1c" "Buy milk" "pending"), repo') /\
    FastapiApp.GET_task "6f1c" repo'
    = (FastapiApp.Content 200
         (FastapiApp.mkTaskResponse "6f1c" "Buy milk" "pending"), repo').
Proof.
  split; [discriminate | split; [reflexivity|]].
  apply (POST_then_GET "6f1c" " Buy milk" "PENDING" MemoryTaskRepository.init);
    [discriminate | reflexivity].
Defined.

Lemma strip_nonempty_min_length (v : string) :
  PyStr.strip v <> EmptyString ->
  FastapiApp.min_length_1 v = true /\ PyStr.truthy v = true /\
  PyStr.truthy (PyStr.strip v) = true.
Proof.
  intros H. apply strip_nonempty_blank in H.
  rewrite truthy_strip, H. destruct v; [discriminate | auto].
Qed.

Lemma CreateTaskRequest_validate_inv (ttl s : string)
      (req : FastapiApp.CreateTaskRequest) :
  FastapiApp.CreateTaskRequest_validate ttl s = Some req ->
  Spec.blank ttl = false /\ Spec.valid_status s = true /\
  req = FastapiApp.mkCreateTaskRequest (PyStr.strip ttl) (PyStr.lower s).
Proof.
  unfold FastapiApp.CreateTaskRequest_validate,
    FastapiApp.CreateTaskRequest_title_not_empty,
    FastapiApp.CreateTaskRequest_status_valid.
  rewrite truthy_strip, contains_valid_status.
  destruct (FastapiApp.min_length_1 ttl); simpl; [|discriminate].
  destruct (Spec.blank ttl); simpl;
    [rewrite orb_true_r; discriminate|].
  destruct (negb (PyStr.truthy ttl)); simpl; [discriminate|].
  destruct (Spec.valid_status s); simpl; [|discriminate].
  intros [= <-]. auto.
Qed.

(** X20.  The validators of [CreateTaskRequest] accept what the factory
    accepts: a request model is built exactly when the title is not blank
    and the status is 'pending' or 'done' up to case, and it then holds the
    trimmed title and the lower-cased status. *)
Theorem CreateTaskRequest_validation (ttl s : string)
        (req : FastapiApp.CreateTaskRequest) :
  FastapiApp.CreateTaskRequest_validate ttl s = Some req <->
  PyStr.strip ttl <> EmptyString /\ Spec.valid_status s = true /\
  req = FastapiApp.mkCreateTaskRequest (PyStr.strip ttl) (PyStr.lower s).
Proof.
  split.
  - intros H. apply CreateTaskRequest_validate_inv in H as (B & V & E).
    split; [now apply strip_nonempty_blank | auto].
  - intros (B & V & ->).
    destruct (strip_nonempty_min_length _ B) as (M & T & T').
    unfold FastapiApp.CreateTaskRequest_validate,
      FastapiApp.CreateTaskRequest_title_not_empty,
      FastapiApp.CreateTaskRequest_status_valid.
    now rewrite M, T, T', contains_valid_status, V.
Qed.

(** X21.  A request that has passed the validators of [CreateTaskRequest]
    is never answered 400: [POST /tasks] answers 201 with the fresh id and
    the title and status of the validated request. *)
Theorem validated_create_accepted (ttl s uuid4 : string)
        (req : FastapiApp.CreateTaskRequest) (repo : Repo) :
  FastapiApp.CreateTaskRequest_validate ttl s = Some req ->
  exists repo',
    FastapiApp.POST_tasks uuid4 req repo
    = (FastapiApp.Content 201
         (FastapiApp.mkTaskResponse uuid4 (FastapiApp.create_title req)
                                    (FastapiApp.create_status req)),
       repo') /\
    FastapiApp.create_title req = PyStr.strip ttl /\
    FastapiApp.create_status req = PyStr.lower s.
Proof.
  intros H. apply CreateTaskRequest_validate_inv in H as (B & V & ->).
  apply valid_status_value in V as [st L]. simpl.
  eexists. split; [|auto].
  rewrite (POST_tasks_ok uuid4 _ _ st repo).
  - rewrite strip_idem, L. reflexivity.
  - now rewrite blank_strip.
  - rewrite L. apply lower_value.
Qed.

Lemma validated_create_accepted_witness :
  FastapiApp.CreateTaskRequest_validate "  Buy milk " "Pending"
  = Some (FastapiApp.mkCreateTaskRequest "Buy milk" "pending") /\
  exists repo',
    FastapiApp.POST_tasks "6f1c"
      (FastapiApp.mkCreateTaskRequest "Buy milk" "pending")
      MemoryTaskRepository.init
    = (FastapiApp.Content 201
         (FastapiApp.mkTaskResponse "6f1c" "Buy milk" "pending"), repo').
Proof.
  split; [reflexivity|].
  destruct (validated_create_accepted "  Buy milk " "Pending" "6f1c"
              (FastapiApp.mkCreateTaskRequest "Buy milk" "pending")
              MemoryTaskRepository.init eq_refl) as (repo' & H & _).
  exists repo'. exact H.
Defined.

Lemma UpdateTaskRequest_validate_inv (ttl s : option string)
      (req : FastapiApp.UpdateTaskRequest) :
  FastapiApp.UpdateTaskRequest_validate ttl s = Some req ->
  (forall x, ttl = Some x -> Spec.blank x = false) /\
  (forall y, s = Some y -> Spec.valid_status y = true) /\
  req = FastapiApp.mkUpdateTaskRequest (option_map PyStr.strip ttl)
                                       (option_map PyStr.lower s).
Proof.
  unfold FastapiApp.UpdateTaskRequest_validate,
    FastapiApp.UpdateTaskRequest_title_not_empty,
    FastapiApp.UpdateTaskRequest_status_valid.
  destruct ttl as [x|]; destruct s as [y|]; cbv beta iota;
    rewrite ?truthy_strip, ?contains_valid_status.
  - destruct (FastapiApp.min_length_1 x); simpl; [|discriminate].
    destruct (Spec.blank x) eqn:B; simpl; [rewrite orb_true_r; discriminate|].
    destruct (PyStr.truthy x); simpl; [|discriminate].
    destruct (Spec.valid_status y) eqn:V; simpl; [|discriminate].
    rewrite (valid_status_truthy y V). intros [= <-].
    repeat split; congruence.
  - destruct (FastapiApp.min_length_1 x); simpl; [|discriminate].
    destruct (Spec.blank x) eqn:B; simpl; [rewrite orb_true_r; discriminate|].
    destruct (PyStr.truthy x); simpl; [|discriminate].
    intros [= <-]. repeat split; congruence.
  - destruct (Spec.valid_status y) eqn:V; simpl; [|discriminate].
    rewrite (valid_status_truthy y V). intros [= <-].
    repeat split; congruence.
  - intros [= <-]. repeat split; congruence.
Qed.

(** X22.  The validators of [UpdateTaskRequest] let an absent field through
    as absent, and a given one when the title is not blank and the status is
    valid up to case; the model then holds the trimmed title and the
    lower-cased status.  Nothing else builds a model: an empty or blank
    title and an unknown or empty status are rejected. *)
Theorem UpdateTaskRequest_validation (ttl s : option string)
        (req : FastapiApp.UpdateTaskRequest) :
  FastapiApp.UpdateTaskRequest_validate ttl s = Some req <->
  (forall x, ttl = Some x -> PyStr.strip x <> EmptyString) /\
  (forall y, s = Some y -> Spec.valid_status y = true) /\
  req = FastapiApp.mkUpdateTaskRequest (option_map PyStr.strip ttl)
                                       (option_map PyStr.lower s).
Proof.
  split.
  - intros H. apply UpdateTaskRequest_validate_inv in H as (B & V & E).
    split; [|auto]. intros x Hx. apply strip_nonempty_blank. auto.
  - intros (B & V & ->).
    unfold FastapiApp.UpdateTaskRequest_validate,
      FastapiApp.UpdateTaskRequest_title_not_empty,
      FastapiApp.UpdateTaskRequest_status_valid.
    destruct ttl as [x|]; destruct s as [y|]; cbv beta iota;
      try (destruct (strip_nonempty_min_length x (B x eq_refl))
            as (M & T & T'); rewrite M, T, T');
      try (rewrite contains_valid_status, (V y eq_refl),
            (valid_status_truthy y (V y eq_refl)));
      reflexivity.
Qed.

Lemma PUT_task_present (uuid4 task_id : string)
      (req : FastapiApp.UpdateTaskRequest) (repo : Repo)
      (existing : Domain.Task) :
  Dict.get task_id repo = Some existing ->
  FastapiApp.PUT_task uuid4 task_id req repo
  = match Domain.TaskFactory.create uuid4
            (match FastapiApp.update_title req with
             | Some t => t
             | None => Domain.title existing
             end)
            (match FastapiApp.update_status req with
             | Some v => v
             | None => Domain.value (Domain.status existing)
             end)
            (Some task_id) with
    | Ok t' =>
        (FastapiApp.Content 200 (FastapiApp.TaskResponse_of (Domain.to_dict t')),
         Dict.set task_id t' repo)
    | Raise e => (FastapiApp.Error 400 (exn_str e), repo)
    end.
Proof.
  intros G.
  unfold FastapiApp.PUT_task, FastapiApp.route, FastapiApp.update_task,
    St.try_except, St.bind.
  rewrite (update_task_present _ _ _ _ _ _ G).
  match goal with
  | |- context [Domain.TaskFactory.create ?u ?a ?b ?c] =>
      destruct (create_cases u a b c)
        as [(_ & st & _ & E) | (_ & msg & E)]; rewrite E
  end; reflexivity.
Qed.

(** X23.  A body that has passed the validators of [UpdateTaskRequest],
    put to an id whose stored task satisfies the invariant, is never
    answered 400 or 404: [PUT /tasks/{id}] answers 200 with the merged
    task, which replaces the stored one; a field of the body that is given
    is the field of the answer, a status that is absent is the stored one,
    a title that is absent is the stored title, trimmed. *)
Theorem validated_update_accepted (ttl s : option string)
        (req : FastapiApp.UpdateTaskRequest) (uuid4 task_id : string)
        (repo : Repo) (existing : Domain.Task) :
  FastapiApp.UpdateTaskRequest_validate ttl s = Some req ->
  Dict.get task_id repo = Some existing ->
  Spec.task_invariant existing ->
  exists t',
    FastapiApp.PUT_task uuid4 task_id req repo
    = (FastapiApp.Content 200 (FastapiApp.TaskResponse_of (Domain.to_dict t')),
       Dict.set task_id t' repo) /\
    Domain.id t' = task_id /\
    Domain.title t' = match FastapiApp.update_title req with
                      | Some x => x
                      | None => PyStr.strip (Domain.title existing)
                      end /\
    Domain.value (Domain.status t')
    = match FastapiApp.update_status req with
      | Some y => y
      | None => Domain.value (Domain.status existing)
      end.
Proof.
  intros H G (_ & Be & _).
  apply UpdateTaskRequest_validate_inv in H as (B & V & ->).
  rewrite (PUT_task_present _ _ _ _ _ G). simpl.
  assert (Hs : exists st,
             PyStr.lower (match option_map PyStr.lower s with
                          | Some v => v
                          | None => Domain.value (Domain.status existing)
                          end) = Domain.value st /\
             Domain.value st = match option_map PyStr.lower s with
                               | Some y => y
                               | None => Domain.value (Domain.status existing)
                               end).
  { destruct s as [y|]; simpl.
    - destruct (proj1 (valid_status_value y) (V y eq_refl)) as [st L].
      exists st. rewrite L. split; [apply lower_value | reflexivity].
    - exists (Domain.status existing). split; [apply lower_value | reflexivity]. }
  destruct Hs as (st & L & Ev).
  assert (Ht : Spec.blank (match option_map PyStr.strip ttl with
                           | Some t => t
                           | None => Domain.title existing
                           end) = false).
  { destruct ttl as [x|]; simpl; [|exact Be].
    rewrite blank_strip. now apply B. }
  rewrite (create_ok _ _ _ _ st Ht L).
  eexists. split; [reflexivity|]. simpl. split; [reflexivity|].
  split; [|exact Ev].
  destruct ttl as [x|]; simpl; [apply strip_idem | reflexivity].
Qed.

Lemma validated_update_accepted_witness :
  FastapiApp.UpdateTaskRequest_validate None (Some "DONE")
  = Some (FastapiApp.mkUpdateTaskRequest None (Some "done")) /\
  exists t',
    FastapiApp.PUT_task "6f1c" "a"
      (FastapiApp.mkUpdateTaskRequest None (Some "done"))
      [("a", Domain.mkTask "a" "Buy milk" Domain.PENDING)]
    = (FastapiApp.Content 200 (FastapiApp.TaskResponse_of (Domain.to_dict t')),
       Dict.set "a" t' [("a", Domain.mkTask "a" "Buy milk" Domain.PENDING)]) /\
    Domain.title t' = "Buy milk" /\
    Domain.value (Domain.status t') = "done".
Proof.
  split; [reflexivity|].
  destruct (validated_update_accepted None (Some "DONE")
              (FastapiApp.mkUpdateTaskRequest None (Some "done")) "6f1c" "a"
              [("a", Domain.mkTask "a" "Buy milk" Domain.PENDING)]
              (Domain.mkTask "a" "Buy milk" Domain.PENDING) eq_refl eq_refl)
    as (t' & H1 & _ & H3 & H4).
  - split; [discriminate | split; [reflexivity | now left]].
  - exists t'. auto.
Defined.

Lemma CreateTaskRequest_validate_ok (ttl s : string) :
  Spec.blank ttl = false -> Spec.valid_status s = true ->
  FastapiApp.CreateTaskRequest_validate ttl s
  = Some (FastapiApp.mkCreateTaskRequest (PyStr.strip ttl) (PyStr.lower s)).
Proof.
  intros B V. apply strip_nonempty_blank in B.
  destruct (strip_nonempty_min_length _ B) as (M & T & T').
  unfold FastapiApp.CreateTaskRequest_validate,
    FastapiApp.CreateTaskRequest_title_not_empty,
    FastapiApp.CreateTaskRequest_status_valid.
  now rewrite M, T, T', contains_valid_status, V.
Qed.

Lemma CreateTaskRequest_validate_none (ttl s : string) :
  Spec.blank ttl = true \/ Spec.valid_status s = false ->
  FastapiApp.CreateTaskRequest_validate ttl s = None.
Proof.
  intros H.
  destruct (FastapiApp.CreateTaskRequest_validate ttl s) as [req|] eqn:E;
    [|reflexivity].
  apply CreateTaskRequest_validate_inv in E as (B & V & _).
  destruct H; congruence.
Qed.

(** X19.  [POST /tasks] with a body of two strings answers 201 or 422,
    never 400 or 500.  It answers 422, with nothing stored, exactly when
    the title is blank or the status is not 'pending' or 'done' up to case:
    the request model rejects such a body before the endpoint runs.
    Otherwise it answers 201 with the fresh id, the trimmed title and the
    lower-cased status. *)
Theorem POST_tasks_body_outcomes (uuid4 ttl s : string) (repo : Repo) :
  (PyStr.strip ttl = EmptyString \/ Spec.valid_status s = false ->
   FastapiApp.POST_tasks_body uuid4 ttl s repo
   = (FastapiApp.Unprocessable, repo)) /\
  (PyStr.strip ttl <> EmptyString /\ Spec.valid_status s = true ->
   exists repo',
     FastapiApp.POST_tasks_body uuid4 ttl s repo
     = (FastapiApp.Answer
          (FastapiApp.Content 201
             (FastapiApp.mkTaskResponse uuid4 (PyStr.strip ttl)
                                        (PyStr.lower s))),
        repo')) /\
  (FastapiApp.body_status_code
     (fst (FastapiApp.POST_tasks_body uuid4 ttl s repo)) = 201 \/
   FastapiApp.body_status_code
     (fst (FastapiApp.POST_tasks_body uuid4 ttl s repo)) = 422).
Proof.
  assert (Rej : PyStr.strip ttl = EmptyString \/ Spec.valid_status s = false ->
                FastapiApp.POST_tasks_body uuid4 ttl s repo
                = (FastapiApp.Unprocessable, repo)).
  { intros H. unfold FastapiApp.POST_tasks_body.
    rewrite CreateTaskRequest_validate_none; [reflexivity|].
    destruct H as [H|H]; [left; now apply strip_blank | now right]. }
  assert (Acc : PyStr.strip ttl <> EmptyString /\ Spec.valid_status s = true ->
                exists repo',
                  FastapiApp.POST_tasks_body uuid4 ttl s repo
                  = (FastapiApp.Answer
                       (FastapiApp.Content 201
                          (FastapiApp.mkTaskResponse uuid4 (PyStr.strip ttl)
                                                     (PyStr.lower s))),
                     repo')).
  { intros (B & V). apply strip_nonempty_blank in B.
    unfold FastapiApp.POST_tasks_body.
    rewrite (CreateTaskRequest_validate_ok _ _ B V).
    apply valid_status_value in V as [st L].
    rewrite (POST_tasks_ok uuid4 _ _ st repo).
    - rewrite strip_idem, L. eauto.
    - now rewrite blank_strip.
    - rewrite L. apply lower_value. }
  split; [exact Rej|]. split; [exact Acc|].
  destruct (Spec.blank ttl) eqn:B.
  - right. rewrite Rej; [reflexivity|]. left. now apply strip_blank.
  - destruct (Spec.valid_status s) eqn:V.
    + left. destruct Acc as (repo' & E).
      * split; [now apply strip_nonempty_blank | reflexivity].
      * now rewrite E.
    + right. rewrite Rej; [reflexivity | now right].
Qed.

Lemma POST_tasks_body_outcomes_witness :
  (PyStr.strip "Walk" = EmptyString \/ Spec.valid_status "started" = false) /\
  FastapiApp.POST_tasks_body "6f1c" "Walk" "started"
    [("a", Domain.mkTask "a" "Buy milk" Domain.PENDING)]
  = (FastapiApp.Unprocessable,
     [("a", Domain.mkTask "a" "Buy milk" Domain.PENDING)]) /\
  (PyStr.strip " Walk " <> EmptyString /\ Spec.valid_status "Done" = true) /\
  exists repo',
    FastapiApp.POST_tasks_body "6f1c" " Walk " "Done"
      [("a", Domain.mkTask "a" "Buy milk" Domain.PENDING)]
    = (FastapiApp.Answer
         (FastapiApp.Content 201
            (FastapiApp.mkTaskResponse "6f1c" "Walk" "done")),
       repo').
Proof.
  split; [right; reflexivity|]. split; [|split].
  - apply (proj1 (POST_tasks_body_outcomes "6f1c" "Walk" "started"
                    [("a", Domain.mkTask "a" "Buy milk" Domain.PENDING)])).
    right. reflexivity.
  - split; [discriminate | reflexivity].
  - apply (proj1 (proj2 (POST_tasks_body_outcomes "6f1c" " Walk " "Done"
                    [("a", Domain.mkTask "a" "Buy milk" Domain.PENDING)]))).
    split; [discriminate | reflexivity].
Defined.

Lemma UpdateTaskRequest_validate_ok (ttl s : option string) :
  (forall x, ttl = Some x -> Spec.blank x = false) ->
  (forall y, s = Some y -> Spec.valid_status y = true) ->
  FastapiApp.UpdateTaskRequest_validate ttl s
  = Some (FastapiApp.mkUpdateTaskRequest (option_map PyStr.strip ttl)
                                         (option_map PyStr.lower s)).
Proof.
  intros B V.
  unfold FastapiApp.UpdateTaskRequest_validate,
    FastapiApp.UpdateTaskRequest_title_not_empty,
    FastapiApp.UpdateTaskRequest_status_valid.
  destruct ttl as [x|]; destruct s as [y|]; cbv beta iota;
    try (destruct (strip_nonempty_min_length x
                     (proj2 (strip_nonempty_blank x) (B x eq_refl)))
          as (M & T & T'); rewrite M, T, T');
    try (rewrite contains_valid_status, (V y eq_refl),
          (valid_status_truthy y (V y eq_refl)));
    reflexivity.
Qed.

Lemma UpdateTaskRequest_validate_none (ttl s : option string) :
  (exists x, ttl = Some x /\ Spec.blank x = true) \/
  (exists y, s = Some y /\ Spec.valid_status y = false) ->
  FastapiApp.UpdateTaskRequest_validate ttl s = None.
Proof.
  intros H.
  destruct (FastapiApp.UpdateTaskRequest_validate ttl s) as [req|] eqn:E;
    [|reflexivity].
  apply UpdateTaskRequest_validate_inv in E as (B & V & _).
  destruct H as [(x & -> & Hx) | (y & -> & Hy)].
  - rewrite (B x eq_refl) in Hx. discriminate.
  - rewrite (V y eq_refl) in Hy. discriminate.
Qed.

(** The merged record of a validated body and a stored task that satisfies
    the invariant passes the factory. *)
Lemma validated_merge_created (ttl s : option string) (uuid4 task_id : string)
      (existing : Domain.Task) :
  (forall x, ttl = Some x -> Spec.blank x = false) ->
  (forall y, s = Some y -> Spec.valid_status y = true) ->
  Spec.task_invariant existing ->
  exists t',
    Domain.TaskFactory.create uuid4
      (match option_map PyStr.strip ttl with
       | Some t => t
       | None => Domain.title existing
       end)
      (match option_map PyStr.lower s with
       | Some v => v
       | None => Domain.value (Domain.status existing)
       end)
      (Some task_id)
    = Ok t'.
Proof.
  intros B V (_ & Be & _).
  assert (Hs : exists st,
             PyStr.lower (match option_map PyStr.lower s with
                          | Some v => v
                          | None => Domain.value (Domain.status existing)
                          end) = Domain.value st).
  { destruct s as [y|]; simpl.
    - destruct (proj1 (valid_status_value y) (V y eq_refl)) as [st L].
      exists st. rewrite L. apply lower_value.
    - exists (Domain.status existing). apply lower_value. }
  destruct Hs as (st & L).
  eexists. apply (create_ok _ _ _ _ st); [|exact L].
  destruct ttl as [x|]; simpl; [|exact Be].
  rewrite blank_strip. now apply B.
Qed.

(** X24.  [PUT /tasks/{id}] with a body whose fields are each absent or a
    string, on a store whose task at the id (if any) satisfies the
    invariant, answers 200, 404 or 422, never 400 or 500.  It answers 422
    exactly when a given title is blank or a given status is not valid up
    to case, whether or not the id is stored; otherwise 404 when the id is
    not stored and 200 when it is.  An answer other than 200 leaves the
    store as it was, and no answer changes the stored ids or their
    order. *)
Theorem PUT_task_body_outcomes (uuid4 task_id : string)
        (ttl s : option string) (repo : Repo) :
  (forall existing, Dict.get task_id repo = Some existing ->
                    Spec.task_invariant existing) ->
  ((exists x, ttl = Some x /\ Spec.blank x = true) \/
   (exists y, s = Some y /\ Spec.valid_status y = false) ->
   FastapiApp.PUT_task_body uuid4 task_id ttl s repo
   = (FastapiApp.Unprocessable, repo)) /\
  ((forall x, ttl = Some x -> Spec.blank x = false) ->
   (forall y, s = Some y -> Spec.valid_status y = true) ->
   FastapiApp.body_status_code
     (fst (FastapiApp.PUT_task_body uuid4 task_id ttl s repo))
   = match Dict.get task_id repo with
     | Some _ => 200
     | None => 404
     end) /\
  (FastapiApp.body_status_code
     (fst (FastapiApp.PUT_task_body uuid4 task_id ttl s repo)) = 200 \/
   FastapiApp.body_status_code
     (fst (FastapiApp.PUT_task_body uuid4 task_id ttl s repo)) = 404 \/
   FastapiApp.body_status_code
     (fst (FastapiApp.PUT_task_body uuid4 task_id ttl s repo)) = 422) /\
  (FastapiApp.body_status_code
     (fst (FastapiApp.PUT_task_body uuid4 task_id ttl s repo)) <> 200 ->
   snd (FastapiApp.PUT_task_body uuid4 task_id ttl s repo) = repo) /\
  Dict.keys (snd (FastapiApp.PUT_task_body uuid4 task_id ttl s repo))
  = Dict.keys repo.
Proof.
  intros I. split.
  { intros H. unfold FastapiApp.PUT_task_body.
    now rewrite (UpdateTaskRequest_validate_none _ _ H). }
  assert (Acc : (forall x, ttl = Some x -> Spec.blank x = false) ->
                (forall y, s = Some y -> Spec.valid_status y = true) ->
                FastapiApp.PUT_task_body uuid4 task_id ttl s repo
                = match Dict.get task_id repo with
                  | Some _ =>
                      let (r, tasks') :=
                        FastapiApp.PUT_task uuid4 task_id
                          (FastapiApp.mkUpdateTaskRequest
                             (option_map PyStr.strip ttl)
                             (option_map PyStr.lower s)) repo in
                      (FastapiApp.Answer r, tasks')
                  | None =>
                      (FastapiApp.Answer
                         (FastapiApp.Error 404
                            ("Task with id '" ++ task_id ++ "' not found")),
                       repo)
                  end /\
                (forall existing, Dict.get task_id repo = Some existing ->
                   exists t',
                     FastapiApp.PUT_task uuid4 task_id
                       (FastapiApp.mkUpdateTaskRequest
                          (option_map PyStr.strip ttl)
                          (option_map PyStr.lower s)) repo
                     = (FastapiApp.Content 200
                          (FastapiApp.TaskResponse_of (Domain.to_dict t')),
                        Dict.set task_id t' repo))).
  { intros B V. unfold FastapiApp.PUT_task_body.
    rewrite (UpdateTaskRequest_validate_ok _ _ B V). split.
    - destruct (Dict.get task_id repo) eqn:G; [reflexivity|].
      now rewrite (PUT_task_absent_404 _ _ _ _ G).
    - intros existing G. rewrite (PUT_task_present _ _ _ _ _ G). simpl.
      destruct (validated_merge_created ttl s uuid4 task_id existing B V
                  (I _ G)) as (t' & E).
      rewrite E. eauto. }
  assert (Cases : FastapiApp.PUT_task_body uuid4 task_id ttl s repo
                  = (FastapiApp.Unprocessable, repo) \/
                  ((forall x, ttl = Some x -> Spec.blank x = false) /\
                   (forall y, s = Some y -> Spec.valid_status y = true))).
  { unfold FastapiApp.PUT_task_body.
    destruct (FastapiApp.UpdateTaskRequest_validate ttl s) as [req|] eqn:E;
      [right | now left].
    apply UpdateTaskRequest_validate_inv in E as (B & V & _). auto. }
  split.
  { intros B V. destruct (Acc B V) as (E & Ok200). rewrite E.
    destruct (Dict.get task_id repo) as [existing|] eqn:G; [|reflexivity].
    destruct (Ok200 _ eq_refl) as (t' & E'). now rewrite E'. }
  destruct Cases as [E | (B & V)].
  - rewrite E. simpl. repeat split; auto; try discriminate.
  - destruct (Acc B V) as (E & Ok200). rewrite E.
    destruct (Dict.get task_id repo) as [existing|] eqn:G.
    + destruct (Ok200 _ eq_refl) as (t' & E'). rewrite E'. simpl.
      repeat split; auto; try congruence.
      apply Dict_keys_set_mem. exact (Dict_get_mem _ _ _ G).
    + simpl. repeat split; auto; try discriminate.
Qed.

Lemma PUT_task_body_outcomes_witness :
  (forall existing,
      Dict.get "b" [("a", Domain.mkTask "a" "Buy milk" Domain.PENDING)]
      = Some existing -> Spec.task_invariant existing) /\
  FastapiApp.PUT_task_body "6f1c" "b" (Some "Walk") (Some "started")
    [("a", Domain.mkTask "a" "Buy milk" Domain.PENDING)]
  = (FastapiApp.Unprocessable,
     [("a", Domain.mkTask "a" "Buy milk" Domain.PENDING)]) /\
  FastapiApp.body_status_code
    (fst (FastapiApp.PUT_task_body "6f1c" "b" (Some "Walk") None
            [("a", Domain.mkTask "a" "Buy milk" Domain.PENDING)]))
  = 404.
Proof.
  assert (I : forall existing,
             Dict.get "b" [("a", Domain.mkTask "a" "Buy milk" Domain.PENDING)]
             = Some existing -> Spec.task_invariant existing)
    by discriminate.
  split; [exact I|]. split.
  - apply (proj1 (PUT_task_body_outcomes "6f1c" "b" (Some "Walk")
                    (Some "started")
                    [("a", Domain.mkTask "a" "Buy milk" Domain.PENDING)] I)).
    right. exists "started". split; reflexivity.
  - apply (proj1 (proj2 (PUT_task_body_outcomes "6f1c" "b" (Some "Walk") None
                    [("a", Domain.mkTask "a" "Buy milk" Domain.PENDING)] I))).
    + intros x [= <-]. reflexivity.
    + discriminate.
Defined.

(** X25.  [DELETE /tasks/{id}] of a stored id answers 204 with an empty
    body; after it both [GET /tasks/{id}] and a second [DELETE] of the id
    answer 404, and the tasks at the other ids are as before.  For an id
    that is not stored it answers 404 and changes nothing. *)
Theorem DELETE_task_then_gone (task_id : string) (repo : Repo) :
  (Dict.get task_id repo <> None ->
   exists repo',
     FastapiApp.DELETE_task task_id repo = (FastapiApp.Content 204 tt, repo') /\
     FastapiApp.GET_task task_id repo'
     = (FastapiApp.Error 404 ("Task with id '" ++ task_id ++ "' not found"),
        repo') /\
     FastapiApp.DELETE_task task_id repo'
     = (FastapiApp.Error 404 ("Task with id '" ++ task_id ++ "' not found"),
        repo') /\
     (forall k, k <> task_id -> Dict.get k repo' = Dict.get k repo)) /\
  (Dict.get task_id repo = None ->
   FastapiApp.DELETE_task task_id repo
   = (FastapiApp.Error 404 ("Task with id '" ++ task_id ++ "' not found"),
      repo)).
Proof.
  assert (Absent : forall r, Dict.mem task_id r = false ->
            FastapiApp.DELETE_task task_id r
            = (FastapiApp.Error 404
                 ("Task with id '" ++ task_id ++ "' not found"), r)).
  { intros r H.
    unfold FastapiApp.DELETE_task, FastapiApp.route, FastapiApp.delete_task,
      St.bind, TaskService.delete_task, MemoryTaskRepository.delete.
    now rewrite H. }
  split.
  - intros G. apply Dict_get_not_None in G.
    exists (Dict.del task_id repo). repeat split.
    + unfold FastapiApp.DELETE_task, FastapiApp.route, FastapiApp.delete_task,
        St.bind, TaskService.delete_task, MemoryTaskRepository.delete.
      now rewrite G.
    + apply GET_task_absent. apply Dict_mem_get. apply Dict_mem_del.
    + apply Absent. apply Dict_mem_del.
    + intros k N. apply Dict_get_del_other. auto.
  - intros G. apply Absent. now apply Dict_mem_get.
Qed.

Lemma DELETE_task_then_gone_witness :
  Dict.get "a" [("a", Domain.mkTask "a" "Buy milk" Domain.PENDING);
                ("b", Domain.mkTask "b" "Walk" Domain.DONE)] <> None /\
  exists repo',
    FastapiApp.DELETE_task "a"
      [("a", Domain.mkTask "a" "Buy milk" Domain.PENDING);
       ("b", Domain.mkTask "b" "Walk" Domain.DONE)]
    = (FastapiApp.Content 204 tt, repo') /\
    FastapiApp.GET_task "a" repo'
    = (FastapiApp.Error 404 "Task with id 'a' not found", repo').
Proof.
  split; [discriminate|].
  destruct (proj1 (DELETE_task_then_gone "a"
              [("a", Domain.mkTask "a" "Buy milk" Domain.PENDING);
               ("b", Domain.mkTask "b" "Walk" Domain.DONE)]))
    as (repo' & H1 & H2 & _); [discriminate|].
  exists repo'. auto.
Defined.

Lemma GET_tasks_no_filter_witness :
  (Some EmptyString = None \/ Some EmptyString = Some EmptyString) /\
  FastapiApp.GET_tasks (Some EmptyString)
    [("a", Domain.mkTask "a" "Buy milk" Domain.PENDING);
     ("b", Domain.mkTask "b" "Walk" Domain.DONE)]
  = (FastapiApp.Content 200
       [FastapiApp.mkTaskResponse "a" "Buy milk" "pending";
        FastapiApp.mkTaskResponse "b" "Walk" "done"],
     [("a", Domain.mkTask "a" "Buy milk" Domain.PENDING);
      ("b", Domain.mkTask "b" "Walk" Domain.DONE)]).
Proof.
  split; [now right|].
  apply (GET_tasks_no_filter (Some EmptyString)
           [("a", Domain.mkTask "a" "Buy milk" Domain.PENDING);
            ("b", Domain.mkTask "b" "Walk" Domain.DONE)]).
  now right.
Defined.
